(** * CyberHeaders: the analysis and scoring engine

    A shallow embedding of [api/utils/headers.py], [api/utils/ssl.py],
    [api/utils/dns.py], [api/utils/wordpress.py], [api/utils/gemini.py] and
    [api/utils/analysis.py], and the properties of the scan that follow from
    the code.

    Conventions.
    - A Python [str] is a [string]; its characters are code points below 256
      (ASCII and latin-1 text).  On that range [str.lower], [str.strip],
      [\d] and [re.IGNORECASE] are the functions written out below.
    - A Python [int] is a [Z] (or an [N] where it is parsed from digits).
    - The header dictionary is a [gmap string string]; the score breakdown
      is a [gmap string Z].
    - A call that may raise returns a [result]; the network, the clock and
      the text-generation service are fields of a [World]. *)

From Stdlib Require Import ZArith Ascii.
From stdpp Require Import base strings gmap list pretty.

Local Open Scope Z_scope.

(** ** Python strings *)

Module Py.

(** [needle in hay] *)
Fixpoint str_in (needle hay : string) : bool :=
  String.prefix needle hay ||
  match hay with
  | EmptyString => false
  | String _ rest => str_in needle rest
  end.

(** [ch.lower()] on a code point below 256: A-Z and the latin-1 capitals
    (all of 0xC0-0xDE but the multiplication sign 0xD7) move up by 32. *)
Definition lower_char (c : ascii) : ascii :=
  let n := N_of_ascii c in
  if ((65 <=? n) && (n <=? 90))%N then ascii_of_N (n + 32)
  else if ((192 <=? n) && (n <=? 222) && negb (n =? 215))%N
       then ascii_of_N (n + 32)
       else c.

(** [s.lower()] *)
Fixpoint lower (s : string) : string :=
  match s with
  | EmptyString => EmptyString
  | String c rest => String (lower_char c) (lower rest)
  end.

(** [ch.isspace()] on a code point below 256 *)
Definition is_space (c : ascii) : bool :=
  let n := N_of_ascii c in
  ((9 <=? n) && (n <=? 13) || (28 <=? n) && (n <=? 32)
   || (n =? 133) || (n =? 160))%N.

Fixpoint lstrip (s : string) : string :=
  match s with
  | EmptyString => EmptyString
  | String c rest => if is_space c then lstrip rest else s
  end.

(** The string without its trailing white space. *)
Fixpoint rstrip (s : string) : string :=
  match s with
  | EmptyString => EmptyString
  | String c rest =>
      match rstrip rest with
      | EmptyString => if is_space c then EmptyString else String c EmptyString
      | kept => String c kept
      end
  end.

(** [s.strip()] *)
Definition strip (s : string) : string := rstrip (lstrip s).

(** [s.split(sep)] for a separator of one character *)
Fixpoint split (sep : ascii) (s : string) : list string :=
  match s with
  | EmptyString => [EmptyString]
  | String c rest =>
      if Ascii.eqb c sep then EmptyString :: split sep rest
      else match split sep rest with
           | piece :: pieces => String c piece :: pieces
           | [] => [String c EmptyString]
           end
  end.

(** [sep.join(parts)] *)
Fixpoint join (sep : string) (parts : list string) : string :=
  match parts with
  | [] => EmptyString
  | [p] => p
  | p :: rest => p +:+ sep +:+ join sep rest
  end.

(** [any(...)] and list membership *)
Definition any {A} (p : A -> bool) (xs : list A) : bool := existsb p xs.

Definition mem (x : string) (xs : list string) : bool :=
  existsb (String.eqb x) xs.

(** Truth value of a string: the empty string is false. *)
Definition truthy (s : string) : bool :=
  match s with EmptyString => false | _ => true end.

(** [x or y] on strings *)
Definition str_or (x y : string) : string := if truthy x then x else y.

(** [ch] is one of 0-9: what [\d] matches below code point 256. *)
Definition is_digit (c : ascii) : bool :=
  let n := N_of_ascii c in ((48 <=? n) && (n <=? 57))%N.

(** [int(digits)] for a string of decimal digits *)
Definition int_of_digits (digits : string) : N :=
  fold_left (fun acc c => (10 * acc + (N_of_ascii c - 48))%N)
            (String.list_ascii_of_string digits) 0%N.

Fixpoint take_while (p : ascii -> bool) (s : string) : string :=
  match s with
  | EmptyString => EmptyString
  | String c rest => if p c then String c (take_while p rest) else EmptyString
  end.

Fixpoint drop (n : nat) (s : string) : string :=
  match n, s with
  | O, _ => s
  | S _, EmptyString => EmptyString
  | S k, String _ rest => drop k rest
  end.

Fixpoint take (n : nat) (s : string) : string :=
  match n, s with
  | O, _ => EmptyString
  | S _, EmptyString => EmptyString
  | S k, String c rest => String c (take k rest)
  end.

(** A match object: [group(0)] and [group(1)]. *)
Record re_match := { group0 : string; group1 : string }.

(** The patterns of this program are all a literal followed by one class
    repeated one or more times, [literal(class+)]; the flag is
    [re.IGNORECASE].  [match_here] tries the pattern at the start of [s]:
    the repetition is greedy and ends the pattern, so it takes the longest
    run. *)
Definition match_here (ignorecase : bool) (literal : string)
    (class : ascii -> bool) (s : string) : option re_match :=
  let n := String.length literal in
  let same :=
    if ignorecase then String.eqb (lower (take n s)) (lower literal)
    else String.eqb (take n s) literal in
  if same then
    match take_while class (drop n s) with
    | EmptyString => None
    | run => Some {| group0 := take n s +:+ run; group1 := run |}
    end
  else None.

(** [re.search]: the leftmost position where the pattern matches. *)
Fixpoint search (ignorecase : bool) (literal : string)
    (class : ascii -> bool) (s : string) : option re_match :=
  match match_here ignorecase literal class s with
  | Some m => Some m
  | None =>
      match s with
      | EmptyString => None
      | String _ rest => search ignorecase literal class rest
      end
  end.

End Py.

(** The loop [for x in xs: if cond(x): issues.append(msg(x))]. *)
Definition append_when {A} (cond : A -> bool) (msg : A -> string)
    (xs : list A) (issues : list string) : list string :=
  fold_left (fun acc x => if cond x then acc ++ [msg x] else acc) xs issues.

(** The loop [for x in xs: out.append(msg(x))]. *)
Definition append_each {A} (msg : A -> string) (xs : list A)
    (out : list string) : list string :=
  fold_left (fun acc x => acc ++ [msg x]) xs out.

(** ** Results, exceptions and the outside world *)

Inductive result (A E : Type) : Type :=
  | Ok (a : A)
  | Err (e : E).
Arguments Ok {A E} a.
Arguments Err {A E} e.

(** The exceptions that leave a function of this program; [str(e)] is the
    message. *)
Inductive exn : Type :=
  | RequestFailedError (msg : string)
  | AnalysisError (msg : string)
  | OtherException (msg : string).

Definition exn_str (e : exn) : string :=
  match e with
  | RequestFailedError msg | AnalysisError msg | OtherException msg => msg
  end.

(** What [client.get(url)] raises: an [httpx.HTTPError] or anything else. *)
Inductive get_failure : Type :=
  | HTTPError (msg : string)
  | NotHTTPError (msg : string).

(** The [httpx] response: its status, [headers.items()] and [text]. *)
Record HttpResponse := {
  response_status : Z;
  response_headers : list (string * string);
  response_text : string
}.

(** The dictionary of [getpeercert()]; a key that is absent is [None].  An
    issuer or subject is a tuple of relative distinguished names, each a
    tuple of (key, value) pairs. *)
Record PeerCert := {
  peer_issuer : option (list (list (string * string)));
  peer_subject : option (list (list (string * string)));
  peer_version : option Z;
  peer_serialNumber : option string;
  peer_notBefore : option string;
  peer_notAfter : option string;
  peer_signatureAlgorithm : option string;
  peer_ocsp : option (list string)
}.

(** An established TLS session: what the accessors of the wrapped socket
    return.  They read the state of the finished handshake and do not
    raise. *)
Record TLSSession := {
  getpeercert : PeerCert;
  version : option string;
  shared_ciphers : option (list (string * string * Z));
  compression : option string
}.

(** One answer of the resolver: [str(rdata)] and, for an MX answer,
    [str(rdata.exchange)]. *)
Record DnsAnswer := {
  rdata_str : string;
  exchange_str : string
}.

(** The collaborators outside the program. *)
Record World := {
  (** [client.get(url)] *)
  http_get : string -> result HttpResponse get_failure;
  (** [response.raise_for_status()]: the message of the
      [httpx.HTTPStatusError] it raises, if it raises *)
  raise_for_status : HttpResponse -> option string;
  (** [urlparse(s).hostname], or the message of the [ValueError] *)
  urlparse_hostname : string -> result (option string) string;
  (** [socket.create_connection((hostname, 443), timeout=10)] *)
  create_connection : string -> result unit string;
  (** [context.wrap_socket(sock, server_hostname=hostname)] *)
  wrap_socket : string -> result TLSSession string;
  (** [(strptime(s, fmt).replace(tzinfo=utc) - now).days], or the message
      of the exception *)
  days_until : string -> result Z string;
  (** [dns.resolver.resolve(name, rdtype)]: [None] when it raises *)
  dns_resolve : string -> string -> option (list DnsAnswer);
  (** the module-level [gemini_model]: [None] when its set-up failed; the
      function is [generate_content(prompt).text] *)
  gemini_model : option (string -> result string string);
  (** [datetime.now(timezone.utc).isoformat()] *)
  now_isoformat : string
}.

(** ** headers.py: the header rule engine *)

Abbreviation HeaderSet := (gmap string string).

(** [check_additional_headers] returns a dictionary of four flags. *)
Record AdditionalHeaders := {
  clear_site_data : bool;
  report_to : bool;
  feature_policy : bool;
  expect_ct : bool
}.

(** [check_owasp_compliance] returns a dictionary of ten flags. *)
Record OwaspCompliance := {
  content_security_policy : bool;
  x_content_type_options : bool;
  x_frame_options : bool;
  strict_transport_security : bool;
  x_xss_protection : bool;
  referrer_policy : bool;
  permissions_policy : bool;
  cross_origin_opener_policy : bool;
  cross_origin_embedder_policy : bool;
  cross_origin_resource_policy : bool
}.

(** The [analysis] dictionary.  The key [wordpress_issues] is absent until
    [analyze_website] adds it. *)
Record HeaderAnalysis := {
  missing_essential : list string;
  deprecated : list string;
  insecure : list string;
  csp_issues : list string;
  cookie_issues : list string;
  cors_issues : list string;
  hsts_issues : list string;
  additional_headers : AdditionalHeaders;
  owasp_compliance : OwaspCompliance;
  wordpress_issues : option (list string)
}.

Definition unsafe_directives : list string :=
  ["unsafe-inline"; "unsafe-eval"; "unsafe-hashes"].
Definition important_directives : list string :=
  ["default-src"; "script-src"; "object-src"; "base-uri"].
Definition permissive_sources : list string :=
  ["*"; "'unsafe-inline'"; "data:"; "http:"; "ftp:"].

Definition analyze_csp (csp_header : string) : list string :=
  let issues := [] in
  let issues :=
    append_when (fun directive => Py.str_in directive csp_header)
      (fun directive => "CSP contains unsafe directive: " +:+ directive)
      unsafe_directives issues in
  let issues :=
    append_when (fun directive => negb (Py.str_in directive csp_header))
      (fun directive => "CSP missing important directive: " +:+ directive)
      important_directives issues in
  let issues :=
    append_when (fun source => Py.str_in source csp_header)
      (fun source => "CSP contains overly permissive source: " +:+ source)
      permissive_sources issues in
  issues.

Definition analyze_cookies (cookie_header : string) : list string :=
  let issues := [] in
  let cookies := map Py.strip (Py.split ";" cookie_header) in
  let has_secure := Py.any (fun c => Py.str_in "secure" (Py.lower c)) cookies in
  let issues :=
    if negb has_secure then issues ++ ["Missing Secure flag"] else issues in
  let issues :=
    if negb (Py.any (fun c => Py.str_in "httponly" (Py.lower c)) cookies)
    then issues ++ ["Missing HttpOnly flag"] else issues in
  let samesite :=
    List.find (fun c => Py.str_in "samesite" (Py.lower c)) cookies in
  let issues :=
    match samesite with
    | None => issues ++ ["Missing SameSite attribute"]
    | Some found =>
        if negb (Py.truthy found) then issues ++ ["Missing SameSite attribute"]
        else if Py.str_in "samesite=none" (Py.lower found) && negb has_secure
             then issues ++ ["SameSite=None without Secure flag"]
             else issues
    end in
  let issues :=
    if Py.any (fun c => Py.str_in "domain=" (Py.lower c)) cookies
    then issues ++ ["Overly broad domain setting"] else issues in
  issues.

Definition analyze_cors (acao_header : string) : list string :=
  let issues := [] in
  if String.eqb acao_header "*"
  then issues ++ ["Overly permissive CORS policy: Access-Control-Allow-Origin: *"]
  else issues.

(** [re.search(r"max-age=(\d+)", hsts_header)] *)
Definition search_max_age (hsts_header : string) : option Py.re_match :=
  Py.search false "max-age=" Py.is_digit hsts_header.

Definition analyze_hsts (hsts_header : string) : list string :=
  let issues := [] in
  let issues :=
    if negb (Py.str_in "max-age" hsts_header)
    then issues ++ ["HSTS missing max-age directive"]
    else
      match search_max_age hsts_header with
      | Some max_age_match =>
          let max_age := Py.int_of_digits (Py.group1 max_age_match) in
          if (max_age <? 31536000)%N
          then issues ++ ["HSTS max-age too short: " +:+ pretty max_age
                          +:+ " (should be at least 31536000)"]
          else issues
      | None => issues
      end in
  let issues :=
    if negb (Py.str_in "includesubdomains" (Py.lower hsts_header))
    then issues ++ ["HSTS missing includeSubDomains directive"]
    else issues in
  issues.

(** Reads of the header dictionary.  A function that is handed the
    dictionary is a computation over it: it returns its result and the
    dictionary as it leaves it. *)
Definition Reads (A : Type) : Type := HeaderSet -> A * HeaderSet.

Global Instance Reads_ret : MRet Reads := fun A a headers => (a, headers).
Global Instance Reads_bind : MBind Reads := fun A B k m headers =>
  let '(a, headers') := m headers in k a headers'.

(** A computation that leaves the dictionary as it found it. *)
Definition read_only {A} (m : Reads A) : Prop :=
  forall headers, (m headers).2 = headers.

(** [key in headers] *)
Definition dict_contains (key : string) : Reads bool :=
  fun headers => (bool_decide (is_Some (headers !! key)), headers).

(** [headers[key]] under the test [key in headers]: [None] when the test
    fails and the subscript is not evaluated. *)
Definition dict_lookup (key : string) : Reads (option string) :=
  fun headers => (headers !! key, headers).

(** [headers.get(key, default)] *)
Definition dict_get (key default : string) : Reads string :=
  fun headers =>
    (match headers !! key with Some v => v | None => default end, headers).

(** [headers.values()] *)
Definition dict_values : Reads (list string) :=
  fun headers => (map snd (map_to_list headers), headers).

(** The comprehension [[h for h in names if keep(h in headers)]]. *)
Fixpoint select_names (keep : bool -> bool) (names : list string)
    : Reads (list string) :=
  match names with
  | [] => mret []
  | h :: rest =>
      present ← dict_contains h;
      chosen ← select_names keep rest;
      mret (if keep present then h :: chosen else chosen)
  end.

Definition check_additional_headers : Reads AdditionalHeaders :=
  a ← dict_contains "clear-site-data";
  b ← dict_contains "report-to";
  c ← dict_contains "feature-policy";
  d ← dict_contains "expect-ct";
  mret {| clear_site_data := a; report_to := b;
          feature_policy := c; expect_ct := d |}.

Definition check_owasp_compliance : Reads OwaspCompliance :=
  csp ← dict_contains "content-security-policy";
  xcto ← dict_get "x-content-type-options" "";
  xfo ← dict_contains "x-frame-options";
  hsts ← dict_contains "strict-transport-security";
  xxp ← dict_contains "x-xss-protection";
  rp ← dict_contains "referrer-policy";
  pp ← dict_contains "permissions-policy";
  coop ← dict_contains "cross-origin-opener-policy";
  coep ← dict_contains "cross-origin-embedder-policy";
  corp ← dict_contains "cross-origin-resource-policy";
  mret {| content_security_policy := csp;
          x_content_type_options := String.eqb (Py.lower xcto) "nosniff";
          x_frame_options := xfo;
          strict_transport_security := hsts;
          x_xss_protection := xxp;
          referrer_policy := rp;
          permissions_policy := pp;
          cross_origin_opener_policy := coop;
          cross_origin_embedder_policy := coep;
          cross_origin_resource_policy := corp |}.

Definition essential_headers : list string :=
  ["content-security-policy"; "x-content-type-options"; "x-frame-options";
   "strict-transport-security"; "x-xss-protection"; "referrer-policy";
   "permissions-policy"; "cross-origin-opener-policy";
   "cross-origin-embedder-policy"; "cross-origin-resource-policy"].

Definition deprecated_headers : list string :=
  ["public-key-pins"; "x-aspnet-version"; "x-powered-by"; "server";
   "x-webkit-csp"; "x-content-security-policy"].

(** [if key in headers: analysis[field] = rule(headers[key])]; the field
    keeps its initial empty list otherwise. *)
Definition sub_rule (key : string) (rule : string -> list string)
    : Reads (list string) :=
  value ← dict_lookup key;
  mret (match value with Some v => rule v | None => [] end).

Definition analyze_headers : Reads HeaderAnalysis :=
  additional ← check_additional_headers;
  owasp ← check_owasp_compliance;
  missing ← select_names negb essential_headers;
  old ← select_names id deprecated_headers;
  csp ← sub_rule "content-security-policy" analyze_csp;
  cookie ← sub_rule "set-cookie" analyze_cookies;
  cors ← sub_rule "access-control-allow-origin" analyze_cors;
  hsts ← sub_rule "strict-transport-security" analyze_hsts;
  mret {| missing_essential := missing;
          deprecated := old;
          insecure := [];
          csp_issues := csp;
          cookie_issues := cookie;
          cors_issues := cors;
          hsts_issues := hsts;
          additional_headers := additional;
          owasp_compliance := owasp;
          wordpress_issues := None |}.

(** [fetch_headers_and_content]: the lower-cased header dictionary and the
    body, or the exception raised. *)
Definition fetch_headers_and_content (w : World) (url : string)
    : result (HeaderSet * string) exn :=
  match http_get w url with
  | Ok response =>
      match raise_for_status w response with
      | None =>
          Ok (fold_left (fun d kv => <[Py.lower kv.1 := kv.2]> d)
                        (response_headers response) (∅ : HeaderSet),
              response_text response)
      | Some e =>
          Err (RequestFailedError ("Request to target website failed: " +:+ e))
      end
  | Err (HTTPError e) =>
      Err (RequestFailedError ("Request to target website failed: " +:+ e))
  | Err (NotHTTPError e) => Err (OtherException e)
  end.

(** ** ssl.py: the TLS probe *)

Module Ssl.

Inductive IntOrStr := Int (z : Z) | Str (s : string).

Record Certificate := {
  issuer : gmap string string;
  subject : gmap string string;
  cert_version : IntOrStr;
  serialNumber : string;
  notBefore : string;
  notAfter : string;
  expires_in_days : IntOrStr;
  signatureAlgorithm : string
}.

Record Protocols := {
  SSLv2 : bool; SSLv3 : bool; TLSv1_0 : bool; TLSv1_1 : bool;
  TLSv1_2 : bool; TLSv1_3 : bool
}.

(** [cert.get("ocsp", False)] *)
Inductive Ocsp := OcspFalse | OcspUris (uris : list string).

(** The [results] dictionary.  [certificate] and [protocols] are [None]
    while they are the empty dictionary; [supported_ciphers] and [error]
    are [None] while the key is absent. *)
Record TLSAnalysis := {
  certificate : option Certificate;
  protocols : option Protocols;
  weak_ciphers : list string;
  compression_enabled : bool;
  ocsp_stapling : Ocsp;
  preload_status : string;
  supported_ciphers : option (list string);
  error : option string
}.

Definition initial_results : TLSAnalysis :=
  {| certificate := None; protocols := None; weak_ciphers := [];
     compression_enabled := false; ocsp_stapling := OcspFalse;
     preload_status := "unknown"; supported_ciphers := None;
     error := None |}.

(** Assignments to one key of [results]. *)
Definition set_certificate (v : Certificate) (r : TLSAnalysis) :=
  {| certificate := Some v; protocols := protocols r;
     weak_ciphers := weak_ciphers r;
     compression_enabled := compression_enabled r;
     ocsp_stapling := ocsp_stapling r; preload_status := preload_status r;
     supported_ciphers := supported_ciphers r; error := error r |}.
Definition set_protocols (v : Protocols) (r : TLSAnalysis) :=
  {| certificate := certificate r; protocols := Some v;
     weak_ciphers := weak_ciphers r;
     compression_enabled := compression_enabled r;
     ocsp_stapling := ocsp_stapling r; preload_status := preload_status r;
     supported_ciphers := supported_ciphers r; error := error r |}.
Definition set_ciphers (all weak : list string) (r : TLSAnalysis) :=
  {| certificate := certificate r; protocols := protocols r;
     weak_ciphers := weak;
     compression_enabled := compression_enabled r;
     ocsp_stapling := ocsp_stapling r; preload_status := preload_status r;
     supported_ciphers := Some all; error := error r |}.
Definition set_compression_enabled (v : bool) (r : TLSAnalysis) :=
  {| certificate := certificate r; protocols := protocols r;
     weak_ciphers := weak_ciphers r;
     compression_enabled := v;
     ocsp_stapling := ocsp_stapling r; preload_status := preload_status r;
     supported_ciphers := supported_ciphers r; error := error r |}.
Definition set_ocsp_stapling (v : Ocsp) (r : TLSAnalysis) :=
  {| certificate := certificate r; protocols := protocols r;
     weak_ciphers := weak_ciphers r;
     compression_enabled := compression_enabled r;
     ocsp_stapling := v; preload_status := preload_status r;
     supported_ciphers := supported_ciphers r; error := error r |}.
Definition set_error (v : string) (r : TLSAnalysis) :=
  {| certificate := certificate r; protocols := protocols r;
     weak_ciphers := weak_ciphers r;
     compression_enabled := compression_enabled r;
     ocsp_stapling := ocsp_stapling r; preload_status := preload_status r;
     supported_ciphers := supported_ciphers r; error := Some v |}.

(** The body of the [try]: it works on [results] and ends normally or
    with the message of an exception; either way [results] keeps the
    assignments made so far. *)
Definition Try (A : Type) : Type :=
  TLSAnalysis -> TLSAnalysis * result A string.

Global Instance Try_ret : MRet Try := fun A a r => (r, Ok a).
Global Instance Try_bind : MBind Try := fun A B k m r =>
  match m r with
  | (r', Ok a) => k a r'
  | (r', Err e) => (r', Err e)
  end.

Definition call {A} (outcome : result A string) : Try A :=
  fun r => (r, outcome).
Definition raise {A} (msg : string) : Try A := fun r => (r, Err msg).
Definition assign (update : TLSAnalysis -> TLSAnalysis) : Try unit :=
  fun r => (update r, Ok tt).

(** [dict(x[0] for x in names)]: the first pair of every relative
    distinguished name; [x[0]] raises [IndexError] on an empty one. *)
Fixpoint first_pairs (names : list (list (string * string)))
    : result (list (string * string)) string :=
  match names with
  | [] => Ok []
  | [] :: _ => Err "tuple index out of range"
  | (kv :: _) :: rest =>
      match first_pairs rest with
      | Ok kvs => Ok (kv :: kvs)
      | Err e => Err e
      end
  end.

Definition name_dict (names : option (list (list (string * string))))
    : result (gmap string string) string :=
  match first_pairs (default [] names) with
  | Ok kvs => Ok (fold_left (fun d kv => <[kv.1 := kv.2]> d) kvs ∅)
  | Err e => Err e
  end.

Definition weak_markers : list string := ["rc4"; "des"; "3des"; "md5"].

Definition is_weak (cipher : string) : bool :=
  Py.any (fun marker => Py.str_in marker (Py.lower cipher)) weak_markers.

(** [str(ssock.version())] *)
Definition version_str (v : option string) : string := default "None" v.

Definition probe (w : World) (url_or_hostname : string) : Try unit :=
  parsed_hostname ← call (urlparse_hostname w url_or_hostname);
  let hostname :=
    match parsed_hostname with
    | Some h => if Py.truthy h then h else Py.strip url_or_hostname
    | None => Py.strip url_or_hostname
    end in
  _ ← (if negb (Py.truthy hostname)
       then raise "Invalid URL or hostname provided for SSL scan"
       else mret tt);
  _ ← call (create_connection w hostname);
  ssock ← call (wrap_socket w hostname);
  let cert := getpeercert ssock in
  let not_after_str := default "" (peer_notAfter cert) in
  let expires :=
    if Py.truthy not_after_str then
      match days_until w not_after_str with
      | Ok days => Int days
      | Err e => Str ("error: " +:+ e)
      end
    else Str "unknown" in
  issuer_dict ← call (name_dict (peer_issuer cert));
  subject_dict ← call (name_dict (peer_subject cert));
  _ ← assign (set_certificate
        {| issuer := issuer_dict;
           subject := subject_dict;
           cert_version :=
             match peer_version cert with
             | Some v => Int v | None => Str "unknown" end;
           serialNumber := default "unknown" (peer_serialNumber cert);
           notBefore := default "unknown" (peer_notBefore cert);
           notAfter := not_after_str;
           expires_in_days := expires;
           signatureAlgorithm :=
             default "unknown" (peer_signatureAlgorithm cert) |});
  _ ← assign (set_protocols
        {| SSLv2 := false; SSLv3 := false; TLSv1_0 := false;
           TLSv1_1 := false;
           TLSv1_2 := Py.str_in "TLSv1.2" (version_str (version ssock));
           TLSv1_3 := Py.str_in "TLSv1.3" (version_str (version ssock)) |});
  _ ← (match shared_ciphers ssock with
       | Some (c :: cs) =>
           let cipher_list := c :: cs in
           assign (set_ciphers
             (map (fun c => c.1.1) cipher_list)
             (map (fun c => c.1.1)
                  (List.filter (fun c => is_weak c.1.1) cipher_list)))
       | _ => mret tt
       end);
  _ ← assign (set_compression_enabled
        (match compression ssock with
         | Some name => Py.truthy name
         | None => false
         end));
  assign (set_ocsp_stapling
        (match peer_ocsp cert with
         | Some uris => OcspUris uris
         | None => OcspFalse
         end)).

Definition ssl_scan (w : World) (url_or_hostname : string) : TLSAnalysis :=
  let results := initial_results in
  match probe w url_or_hostname results with
  | (results, Ok _) => results
  | (results, Err e) => set_error e results
  end.

End Ssl.

(** ** dns.py: the DNS probe *)

Module Dns.

(** The [results] dictionary; [error] is [None] while the key is absent. *)
Record DNSAnalysis := {
  dnssec : bool;
  dmarc : bool;
  dkim : bool;
  spf : bool;
  mx_records : list string;
  error : option string
}.

Definition common_dkim_selectors : list string :=
  ["google"; "selector1"; "selector2"; "dkim"].

Definition resolves (w : World) (name rdtype : string) : bool :=
  match dns_resolve w name rdtype with Some _ => true | None => false end.

(** Every lookup has a handler of its own that swallows the exception, so
    the outer handler is never entered and [error] is never set. *)
Definition dns_scan (w : World) (domain : string) : DNSAnalysis :=
  {| dnssec := resolves w domain "DNSKEY";
     dmarc := resolves w ("_dmarc." +:+ domain) "TXT";
     dkim :=
       Py.any (fun selector =>
                 resolves w (selector +:+ "._domainkey." +:+ domain) "TXT")
              common_dkim_selectors;
     spf :=
       match dns_resolve w domain "TXT" with
       | Some answers =>
           Py.any (fun rdata => Py.str_in "v=spf1" (rdata_str rdata)) answers
       | None => false
       end;
     mx_records :=
       match dns_resolve w domain "MX" with
       | Some answers => map exchange_str answers
       | None => []
       end;
     error := None |}.

End Dns.

(** ** wordpress.py: the CMS fingerprint *)

Module Wordpress.

Definition check_wordpress (body : string) : Reads bool :=
  powered ← dict_lookup "x-powered-by";
  link ← dict_lookup "link";
  values ← dict_values;
  let wordpress_indicators :=
    [ match powered with
      | Some v => Py.str_in "wordpress" (Py.lower v) | None => false end;
      match link with
      | Some v => Py.str_in "wp-json" (Py.lower v) | None => false end;
      Py.any (fun v => Py.str_in "wordpress" (Py.lower v)) values;
      Py.str_in "wp-content" (Py.lower body);
      Py.str_in "wp-includes" (Py.lower body) ] in
  mret (Py.any id wordpress_indicators).

Definition wordpress_headers : list string :=
  ["x-wp-cron"; "x-redirect-by"; "x-pingback"].

(** A version pattern: its literal, and whether it has a group. *)
Record pattern := { literal : string; has_group : bool }.

Definition version_patterns : list pattern :=
  [ {| literal := "wordpress "; has_group := false |};
    {| literal := "wp-includes/js/wp-embed.js?ver="; has_group := true |};
    {| literal := "wp-includes/css/dist/block-library/style.min.css?ver=";
       has_group := true |} ].

(** The class [[0-9.]] *)
Definition version_char (c : ascii) : bool :=
  Py.is_digit c || Ascii.eqb c ".".

(** The loop over the patterns, left at the first one that matches. *)
Fixpoint version_leak (patterns : list pattern) (body : string)
    (issues : list string) : list string :=
  match patterns with
  | [] => issues
  | p :: rest =>
      match Py.search true (literal p) version_char body with
      | Some m =>
          let version := if has_group p then Py.group1 m else Py.group0 m in
          issues ++ ["WordPress version " +:+ version +:+ " exposed in HTML"]
      | None => version_leak rest body issues
      end
  end.

Definition analyze_wordpress_headers (body : string) : Reads (list string) :=
  let issues : list string := [] in
  exposed ← select_names id wordpress_headers;
  let issues :=
    append_each (fun header => "WordPress header exposed: " +:+ header)
                exposed issues in
  pingback ← dict_contains "x-pingback";
  let issues :=
    if (pingback : bool)
    then issues ++ ["XML-RPC pingback endpoint exposed (consider disabling if not needed)"]
    else issues in
  link ← dict_lookup "link";
  let issues :=
    match link with
    | Some v =>
        if Py.str_in "wp-json" v
        then issues ++ ["WordPress REST API endpoint exposed (consider restricting access if not needed)"]
        else issues
    | None => issues
    end in
  values ← dict_values;
  let issues :=
    if Py.any (fun v => Py.str_in "admin-ajax.php" v) values
    then issues ++ ["WordPress admin-ajax.php endpoint exposed (consider rate limiting)"]
    else issues in
  mret (version_leak version_patterns body issues).

End Wordpress.

(** ** The result of a scan *)

(** The [response_data] dictionary of [analyze_website].  [dns] is [None]
    when it is the empty dictionary (no deep scan); [gemini_analysis] is
    [None] while the key is absent. *)
Record AnalysisResult := {
  url : string;
  status_code : Z;
  security_score : Z;
  score_breakdown : gmap string Z;
  headers : HeaderSet;
  analysis : HeaderAnalysis;
  ssl : Ssl.TLSAnalysis;
  dns : option Dns.DNSAnalysis;
  recommendations : list string;
  passed_checks : list string;
  failed_checks : list string;
  risk_level : string;
  timestamp : string;
  gemini_analysis : option string
}.

(** ** gemini.py: the narrative *)

Module Gemini.

(** [chr(10)] *)
Definition newline : string := String (ascii_of_N 10) EmptyString.

Definition indent : string := "        ".

Definition prompt (results : AnalysisResult) : string :=
  let listed (items : list string) := Py.str_or (Py.join ", " items) "None" in
  Py.join newline
    [ "";
      indent +:+ "Analyze these website security scan results and provide a comprehensive security assessment:";
      "";
      indent +:+ "URL: " +:+ url results;
      indent +:+ "Security Score: " +:+ pretty (security_score results) +:+ "/100";
      indent +:+ "Risk Level: " +:+ risk_level results;
      "";
      indent +:+ "Key Findings:";
      indent +:+ "- Missing Headers: " +:+ listed (missing_essential (analysis results));
      indent +:+ "- Deprecated Headers: " +:+ listed (deprecated (analysis results));
      indent +:+ "- CSP Issues: " +:+ listed (csp_issues (analysis results));
      indent +:+ "- WordPress Issues: "
        +:+ listed (default [] (wordpress_issues (analysis results)));
      indent +:+ "- SSL Issues: " +:+ default "None" (Ssl.error (ssl results));
      "";
      indent +:+ "Passed Checks:";
      indent +:+ Py.join newline (passed_checks results);
      "";
      indent +:+ "Failed Checks:";
      indent +:+ Py.join newline (failed_checks results);
      "";
      indent +:+ "Recommendations:";
      indent +:+ Py.join newline (recommendations results);
      "";
      indent +:+ "Provide your analysis in this format:";
      indent +:+ "1. Executive Summary";
      indent +:+ "2. Critical Vulnerabilities";
      indent +:+ "3. Security Header Analysis";
      indent +:+ "4. WordPress-Specific Risks (if applicable)";
      indent +:+ "5. SSL/TLS Configuration Review";
      indent +:+ "6. Actionable Recommendations";
      indent +:+ "7. Overall Risk Assessment";
      indent ].

(** Every exception of the call is handled here, so the function returns
    a string whatever happens. *)
Definition generate_gemini_analysis (w : World) (results : AnalysisResult)
    : string :=
  match gemini_model w with
  | None => "Gemini analysis unavailable"
  | Some generate =>
      match generate (prompt results) with
      | Ok text => text
      | Err e => "Gemini analysis failed: " +:+ e
      end
  end.

End Gemini.

(** ** analysis.py: scoring, recommendations and the orchestrator *)

(** A breakdown dictionary: the five categories and their budgets. *)
Definition budgets (for_headers for_ssl for_cookies for_cors for_wordpress : Z)
    : gmap string Z :=
  {[ "headers" := for_headers; "ssl" := for_ssl; "cookies" := for_cookies;
     "cors" := for_cors; "wordpress" := for_wordpress ]}.

Definition initial_breakdown : gmap string Z := budgets 40 30 15 10 5.

(** [breakdown[category] -= penalty] *)
Definition deduct (category : string) (penalty : Z) (breakdown : gmap string Z)
    : gmap string Z :=
  alter (fun budget => budget - penalty) category breakdown.

(** [len(xs)] *)
Definition len {A} (xs : list A) : Z := Z.of_nat (length xs).

(** Truth value of a list: the empty list is false. *)
Definition nonempty {A} (xs : list A) : bool :=
  match xs with [] => false | _ => true end.

(** The number of CMS issues: 0 while the key is absent. *)
Definition wordpress_count (header_analysis : HeaderAnalysis) : Z :=
  match wordpress_issues header_analysis with
  | Some issues => len issues
  | None => 0
  end.

Definition calculate_security_score (header_analysis : HeaderAnalysis)
    (ssl_analysis : Ssl.TLSAnalysis) : Z * gmap string Z :=
  let score := 100 in
  let breakdown := initial_breakdown in
  (* Deduct for missing headers *)
  let missing_penalty := len (missing_essential header_analysis) * 3 in
  let score := score - missing_penalty in
  let breakdown := deduct "headers" missing_penalty breakdown in
  (* Deduct for deprecated headers *)
  let deprecated_penalty := len (deprecated header_analysis) * 2 in
  let score := score - deprecated_penalty in
  let breakdown := deduct "headers" deprecated_penalty breakdown in
  (* Deduct for other issues *)
  let score := score - len (csp_issues header_analysis) * 2 in
  let score := score - len (cookie_issues header_analysis) * 2 in
  let score := score - len (cors_issues header_analysis) * 2 in
  let score := score - len (hsts_issues header_analysis) * 2 in
  (* SSL penalties *)
  let '(score, breakdown) :=
    if nonempty (Ssl.weak_ciphers ssl_analysis) then
      let ssl_penalty := len (Ssl.weak_ciphers ssl_analysis) * 3 in
      (score - ssl_penalty, deduct "ssl" ssl_penalty breakdown)
    else (score, breakdown) in
  let '(score, breakdown) :=
    if Ssl.compression_enabled ssl_analysis
    then (score - 10, deduct "ssl" 10 breakdown)
    else (score, breakdown) in
  (* WordPress specific penalties *)
  let '(score, breakdown) :=
    match wordpress_issues header_analysis with
    | Some issues =>
        let wp_penalty := len issues * 2 in
        (score - wp_penalty, deduct "wordpress" wp_penalty breakdown)
    | None => (score, breakdown)
    end in
  (* Ensure no negative scores *)
  let score := Z.max score 0 in
  let breakdown := (fun budget => Z.max budget 0) <$> breakdown in
  (score, breakdown).

Definition generate_recommendations (header_analysis : HeaderAnalysis)
    (ssl_analysis : Ssl.TLSAnalysis) : list string :=
  let recommendations := [] in
  (* Header recommendations *)
  let recommendations :=
    append_each (fun header => "Add missing security header: " +:+ header)
      (missing_essential header_analysis) recommendations in
  let recommendations :=
    append_each (fun header => "Remove deprecated header: " +:+ header)
      (deprecated header_analysis) recommendations in
  let recommendations :=
    append_each (fun issue => "CSP issue: " +:+ issue)
      (csp_issues header_analysis) recommendations in
  let recommendations :=
    append_each (fun issue => "Cookie security issue: " +:+ issue)
      (cookie_issues header_analysis) recommendations in
  let recommendations :=
    append_each (fun issue => "CORS issue: " +:+ issue)
      (cors_issues header_analysis) recommendations in
  let recommendations :=
    append_each (fun issue => "HSTS issue: " +:+ issue)
      (hsts_issues header_analysis) recommendations in
  (* WordPress specific recommendations *)
  let recommendations :=
    match wordpress_issues header_analysis with
    | Some issues =>
        append_each (fun issue => "WordPress issue: " +:+ issue)
          issues recommendations
    | None => recommendations
    end in
  (* SSL recommendations *)
  let recommendations :=
    if nonempty (Ssl.weak_ciphers ssl_analysis)
    then recommendations ++
         ["Disable weak cipher suites: "
          +:+ Py.join ", " (Ssl.weak_ciphers ssl_analysis)]
    else recommendations in
  let recommendations :=
    if Ssl.compression_enabled ssl_analysis
    then recommendations ++
         ["Disable TLS compression (CRIME vulnerability risk)"]
    else recommendations in
  let recommendations :=
    match Ssl.error ssl_analysis with
    | Some e => recommendations ++ ["Fix SSL error: " +:+ e]
    | None => recommendations
    end in
  recommendations.

Definition checked_headers : list string :=
  ["content-security-policy"; "x-content-type-options"; "x-frame-options";
   "strict-transport-security"].

Definition categorize_checks (header_analysis : HeaderAnalysis)
    (ssl_analysis : Ssl.TLSAnalysis) : list string * list string :=
  let passed : list string := [] in
  let failed : list string := [] in
  (* Header checks *)
  let '(passed, failed) :=
    fold_left
      (fun '(passed, failed) header =>
         if negb (Py.mem header (missing_essential header_analysis))
         then (passed ++ ["Header present: " +:+ header], failed)
         else (passed, failed ++ ["Header missing: " +:+ header]))
      checked_headers (passed, failed) in
  (* SSL checks *)
  let '(passed, failed) :=
    if negb (nonempty (Ssl.weak_ciphers ssl_analysis))
    then (passed ++ ["No weak cipher suites"], failed)
    else (passed,
          failed ++ ["Weak ciphers found: "
                     +:+ Py.join ", " (Ssl.weak_ciphers ssl_analysis)]) in
  let '(passed, failed) :=
    if negb (Ssl.compression_enabled ssl_analysis)
    then (passed ++ ["TLS compression disabled"], failed)
    else (passed,
          failed ++ ["TLS compression enabled (CRIME vulnerability risk)"]) in
  (passed, failed).

(** [header_analysis["wordpress_issues"] = issues] *)
Definition set_wordpress_issues (issues : list string) (a : HeaderAnalysis)
    : HeaderAnalysis :=
  {| missing_essential := missing_essential a;
     deprecated := deprecated a;
     insecure := insecure a;
     csp_issues := csp_issues a;
     cookie_issues := cookie_issues a;
     cors_issues := cors_issues a;
     hsts_issues := hsts_issues a;
     additional_headers := additional_headers a;
     owasp_compliance := owasp_compliance a;
     wordpress_issues := Some issues |}.

(** The risk tier of a score, as [analyze_website] computes it. *)
Definition risk_level_of (security_score : Z) : string :=
  if security_score <? 40 then "High"
  else if security_score <? 70 then "Medium"
  else "Low".

(** [response_data["gemini_analysis"] = text] *)
Definition set_gemini_analysis (text : string) (r : AnalysisResult)
    : AnalysisResult :=
  {| url := url r; status_code := status_code r;
     security_score := security_score r;
     score_breakdown := score_breakdown r; headers := headers r;
     analysis := analysis r; ssl := ssl r; dns := dns r;
     recommendations := recommendations r;
     passed_checks := passed_checks r; failed_checks := failed_checks r;
     risk_level := risk_level r; timestamp := timestamp r;
     gemini_analysis := Some text |}.

(** The body of the [try] of [analyze_website]: the result, or the
    exception that reaches the handler. *)
Definition scan (w : World) (target : string)
    (include_gemini_analysis deep_scan : bool) : result AnalysisResult exn :=
  match fetch_headers_and_content w target with
  | Err e => Err e
  | Ok (fetched, body) =>
      let '(header_analysis, fetched) := analyze_headers fetched in
      let ssl_analysis := Ssl.ssl_scan w target in
      let dns_analysis :=
        if deep_scan then Some (Dns.dns_scan w target) else None in
      let '(is_wordpress, fetched) := Wordpress.check_wordpress body fetched in
      let '(header_analysis, fetched) :=
        if is_wordpress then
          let '(issues, fetched) :=
            Wordpress.analyze_wordpress_headers body fetched in
          (set_wordpress_issues issues header_analysis, fetched)
        else (header_analysis, fetched) in
      let '(score, breakdown) :=
        calculate_security_score header_analysis ssl_analysis in
      let level := risk_level_of score in
      let recs := generate_recommendations header_analysis ssl_analysis in
      let '(passed, failed) := categorize_checks header_analysis ssl_analysis in
      let response_data :=
        {| url := target;
           status_code := 200;
           security_score := score;
           score_breakdown := breakdown;
           headers := fetched;
           analysis := header_analysis;
           ssl := ssl_analysis;
           dns := dns_analysis;
           recommendations := recs;
           passed_checks := passed;
           failed_checks := failed;
           risk_level := level;
           timestamp := now_isoformat w;
           gemini_analysis := None |} in
      let response_data :=
        if include_gemini_analysis
        then set_gemini_analysis
               (Gemini.generate_gemini_analysis w response_data) response_data
        else response_data in
      Ok response_data
  end.

(** [analyze_website]: the handler [except Exception as e] encloses the
    whole body and raises [AnalysisError(f"Analysis failed: {str(e)}")]. *)
Definition analyze_website (w : World) (target : string)
    (include_gemini_analysis deep_scan : bool) : result AnalysisResult exn :=
  match scan w target include_gemini_analysis deep_scan with
  | Ok response_data => Ok response_data
  | Err e => Err (AnalysisError ("Analysis failed: " +:+ exn_str e))
  end.

(** ** Worlds to run the scan in *)

Module Example.

(** [raise_for_status] of a recent [httpx]: anything but 2xx raises. *)
Definition raise_unless_2xx (response : HttpResponse) : option string :=
  if (200 <=? response_status response) && (response_status response <=? 299)
  then None
  else Some ("HTTP status " +:+ pretty (response_status response)).

(** A site that answers 204 with one header, and whose port 443 is
    closed. *)
Definition no_content : HttpResponse :=
  {| response_status := 204;
     response_headers :=
       [("Content-Security-Policy", "default-src 'self'")];
     response_text := "" |}.

Definition tls_refused : World :=
  {| http_get := fun _ => Ok no_content;
     raise_for_status := raise_unless_2xx;
     urlparse_hostname := fun _ => Ok (Some "site.test");
     create_connection := fun _ => Err "[Errno 111] Connection refused";
     wrap_socket := fun _ => Err "handshake failure";
     days_until := fun _ => Ok 90;
     dns_resolve := fun _ _ => None;
     gemini_model := None;
     now_isoformat := "2025-01-01T00:00:00+00:00" |}.

(** A site that cannot be reached at all. *)
Definition unreachable : World :=
  {| http_get := fun _ => Err (HTTPError "[Errno -2] Name or service not known");
     raise_for_status := raise_unless_2xx;
     urlparse_hostname := fun _ => Ok (Some "down.test");
     create_connection := fun _ => Err "[Errno -2] Name or service not known";
     wrap_socket := fun _ => Err "handshake failure";
     days_until := fun _ => Ok 90;
     dns_resolve := fun _ _ => None;
     gemini_model := None;
     now_isoformat := "2025-01-01T00:00:00+00:00" |}.

(** A site whose TLS session offers one weak cipher and compresses. *)
Definition weak_session : TLSSession :=
  {| getpeercert :=
       {| peer_issuer := Some [[("organizationName", "Test CA")]];
          peer_subject := Some [[("commonName", "site.test")]];
          peer_version := Some 3;
          peer_serialNumber := Some "0A";
          peer_notBefore := Some "Jan  1 00:00:00 2025 GMT";
          peer_notAfter := Some "Apr  1 00:00:00 2025 GMT";
          peer_signatureAlgorithm := None;
          peer_ocsp := None |};
     version := Some "TLSv1.2";
     shared_ciphers :=
       Some [("TLS_AES_128_GCM_SHA256", "TLSv1.3", 128);
             ("TLS_RSA_WITH_3DES_EDE_CBC_SHA", "TLSv1.2", 112)];
     compression := Some "zlib" |}.

Definition tls_weak : World :=
  {| http_get := fun _ => Ok no_content;
     raise_for_status := raise_unless_2xx;
     urlparse_hostname := fun _ => Ok (Some "site.test");
     create_connection := fun _ => Ok tt;
     wrap_socket := fun _ => Ok weak_session;
     days_until := fun _ => Ok 90;
     dns_resolve := fun _ _ => None;
     gemini_model := None;
     now_isoformat := "2025-01-01T00:00:00+00:00" |}.

End Example.

(** ** More of Python *)

Module PyInt.

(** The digits of [int(s)]: one digit or more, with single underscores
    allowed between digits. *)
Fixpoint digits (acc : Z) (after_digit : bool) (s : string) : option Z :=
  match s with
  | EmptyString => if after_digit then Some acc else None
  | String c rest =>
      if Py.is_digit c
      then digits (10 * acc + (Z.of_N (N_of_ascii c) - 48)) true rest
      else if Ascii.eqb c "_" && after_digit then digits acc false rest
      else None
  end.

(** [int(s)] in base 10: white space around the number is dropped, a sign
    may come first; [None] when it raises [ValueError]. *)
Definition int (s : string) : option Z :=
  match Py.strip s with
  | String "+" rest => digits 0 false rest
  | String "-" rest => Z.opp <$> digits 0 false rest
  | number => digits 0 false number
  end.

End PyInt.

(** ** settings.py: the API keys and the default rate *)

Record KeyConfig := {
  limit : string;
  features : list string
}.

Record Settings := {
  API_KEYS : gmap string KeyConfig;
  RATE_LIMIT : string
}.

(** The settings when the environment sets none of the variables. *)
Definition default_settings : Settings :=
  {| API_KEYS :=
       {[ "default-key" :=
            {| limit := "10/minute";
               features := ["basic_scan"; "gemini_analysis"] |} ]};
     RATE_LIMIT := "10/minute" |}.

(** ** permissions.py and middleware/security.py: the API key *)

(** [HasValidAPIKey.has_permission]; the argument is
    [request.headers.get('api-key')]. *)
Definition has_permission (settings : Settings) (api_key : option string)
    : bool :=
  match api_key with
  | None => false
  | Some key =>
      if negb (Py.truthy key) then false
      else bool_decide (is_Some (API_KEYS settings !! key))
  end.

(** [APIKeyAuthentication.authenticate]: the pair [(None, None)], or the
    message of the [AuthenticationFailed] it raises. *)
Definition authenticate (settings : Settings) (api_key : option string)
    : result unit string :=
  match api_key with
  | None => Err "API key required"
  | Some key =>
      if negb (Py.truthy key) then Err "API key required"
      else if negb (bool_decide (is_Some (API_KEYS settings !! key)))
           then Err "Invalid API key"
           else Ok tt
  end.

(** The headers of a Django response: [response[name] = value] stores the
    pair under the lower-cased name, so a later assignment replaces an
    earlier one whatever the case of the letters. *)
Abbreviation ResponseHeaders := (gmap string (string * string)).



Definition middleware_csp : string :=
  "default-src 'self'; " +:+
  "script-src 'self' 'unsafe-inline'; " +:+
  "style-src 'self' 'unsafe-inline'; " +:+
  "img-src 'self' data:; " +:+
  "font-src 'self'; " +:+
  "connect-src 'self'; " +:+
  "frame-ancestors 'none'; " +:+
  "form-action 'self'; " +:+
  "base-uri 'self'; " +:+
  "object-src 'none'".


(** ** middleware/rate_limit.py *)

Module RateLimit.

(** What the middleware reads of a request: [request.path] and
    [request.headers.get('api-key')]. *)
Record Request := {
  path : string;
  api_key_header : option string
}.

(** The cache: every entry has a value and the instant it expires at.  An
    entry can be read while the clock is before that instant. *)
Record Entry := {
  value : Z;
  expires : Z
}.

Abbreviation Cache := (gmap string Entry).

(** [cache.get(key, default)] at the instant [now] *)
Definition cache_get (now : Z) (key : string) (default : Z) (cache : Cache)
    : Z :=
  match cache !! key with
  | Some entry => if now <? expires entry then value entry else default
  | None => default
  end.

(** [cache.set(key, v, timeout)] at the instant [now] *)
Definition cache_set (now : Z) (key : string) (v timeout : Z) (cache : Cache)
    : Cache :=
  <[key := {| value := v; expires := now + timeout |}]> cache.

Definition get_rate_limit (settings : Settings) (api_key : string) : string :=
  match API_KEYS settings !! api_key with
  | Some config => limit config
  | None => RATE_LIMIT settings
  end.

(** [parse_rate]: the limit and the period in seconds; [None] when it raises
    [ValueError] (from [int], or from unpacking more than two parts). *)
Definition parse_rate (rate : string) : option (Z * Z) :=
  if negb (Py.str_in "/" rate) then
    num ← PyInt.int rate; Some (num, 60)
  else
    match Py.split "/" rate with
    | [num; period] =>
        num ← PyInt.int num;
        let period_seconds :=
          if String.eqb period "second" then 1
          else if String.eqb period "minute" then 60
          else if String.eqb period "hour" then 3600
          else if String.eqb period "day" then 86400
          else 60 in
        Some (num, period_seconds)
    | _ => None
    end.

(** What the middleware does with the request. *)
Inductive Decision :=
  | Forward            (* [self.get_response(request)] *)
  | TooManyRequests.   (* the 429 answer *)

(** [f'ratelimit:{api_key}:{request.path}'] *)
Definition cache_key (api_key path : string) : string :=
  "ratelimit:" +:+ api_key +:+ ":" +:+ path.

(** [RateLimitMiddleware.__call__] at the instant [now]: the decision and
    the cache afterwards; [None] when [parse_rate] raises. *)
Definition call (settings : Settings) (now : Z) (request : Request)
    (cache : Cache) : option (Decision * Cache) :=
  if negb (String.prefix "/api/" (path request)) then Some (Forward, cache)
  else
    let api_key := default "anonymous" (api_key_header request) in
    let rate_limit := get_rate_limit settings api_key in
    if negb (Py.truthy rate_limit) then Some (Forward, cache)
    else
      '(limit, period) ← parse_rate rate_limit;
      let key := cache_key api_key (path request) in
      let current := cache_get now key 0 cache in
      if limit <=? current then Some (TooManyRequests, cache)
      else Some (Forward, cache_set now key (current + 1) period cache).

(** The same request sent again at each of the instants, in order: the
    decisions, and the cache at the end. *)
Fixpoint call_at (settings : Settings) (request : Request)
    (instants : list Z) (cache : Cache) : option (list Decision * Cache) :=
  match instants with
  | [] => Some ([], cache)
  | now :: later =>
      '(decision, cache) ← call settings now request cache;
      '(decisions, cache) ← call_at settings request later cache;
      Some (decision :: decisions, cache)
  end.

End RateLimit.

(** ** serializers.py and views.py: the endpoint *)

Module Views.

(** [URLRequestSerializer.validate_url]; [validator] is Django's
    [URLValidator(schemes=['http', 'https'])]: the text of the
    [ValidationError] it raises, if it raises. *)
Definition validate_url (validator : string -> option string)
    (value : string) : result string string :=
  if negb (String.prefix "http://" value || String.prefix "https://" value)
  then Err "URL must include http:// or https://"
  else match validator value with
       | Some e => Err ("Invalid URL: " +:+ e)
       | None => Ok value
       end.

(** [serializer.validated_data] *)
Record ScanRequest := {
  url : string;
  include_gemini_analysis : bool;
  deep_scan : bool;
  pdf_generation : bool
}.

(** What the view gets from the framework and from the PDF renderer. *)
Record Service (Data : Type) := {
  (** the URL validator of Django *)
  url_validator : string -> option string;
  (** [uuid.uuid4().hex] *)
  uuid4_hex : string;
  (** [generate_pdf_report(result, output_path)] and the opening of the
      file: the message of the exception, if one is raised *)
  pdf_report : AnalysisResult -> string -> option string;
  (** [EnhancedAnalysisResponseSerializer(data=result)]: the validated
      data, or the errors *)
  serialize : AnalysisResult -> result Data string
}.
Arguments url_validator {Data}.
Arguments uuid4_hex {Data}.
Arguments pdf_report {Data}.
Arguments serialize {Data}.

Inductive Body (Data : Type) :=
  | Errors (errors : string)     (* [serializer.errors] *)
  | Detail (detail : string)     (* [{"detail": detail}] *)
  | Json (data : Data)           (* the validated data *)
  | File (filename : string).    (* the PDF as an attachment *)
Arguments Errors {Data}.
Arguments Detail {Data}.
Arguments Json {Data}.
Arguments File {Data}.

Record Response (Data : Type) := {
  status : Z;
  body : Body Data
}.
Arguments status {Data}.
Arguments body {Data}.

(** [serializer.is_valid()]: [fields] is the outcome of the field checks
    of the framework (the values, or the errors); [validate_url] runs on
    the [url] that passed them. *)
Definition is_valid {Data} (service : Service Data)
    (fields : result ScanRequest string) : result ScanRequest string :=
  match fields with
  | Err errors => Err errors
  | Ok request =>
      match validate_url (url_validator service) (url request) with
      | Ok _ => Ok request
      | Err errors => Err errors
      end
  end.

(** [AnalyzeView.post] *)
Definition post {Data} (service : Service Data) (w : World)
    (fields : result ScanRequest string) : Response Data :=
  match is_valid service fields with
  | Err errors => {| status := 400; body := Errors errors |}
  | Ok request =>
      match analyze_website w (url request)
              (include_gemini_analysis request) (deep_scan request) with
      | Ok analysed =>
          if pdf_generation request then
            let filename := "CyberHeaders_" +:+ uuid4_hex service +:+ ".pdf" in
            let output_path := filename in
            match pdf_report service analysed output_path with
            | None => {| status := 200; body := File filename |}
            | Some _ =>
                {| status := 500; body := Detail "PDF generation failed" |}
            end
          else
            match serialize service analysed with
            | Ok data => {| status := 200; body := Json data |}
            | Err errors => {| status := 500; body := Errors errors |}
            end
      | Err (RequestFailedError e) => {| status := 400; body := Detail e |}
      | Err (AnalysisError e) => {| status := 500; body := Detail e |}
      | Err (OtherException _) =>
          {| status := 500; body := Detail "An unexpected error occurred" |}
      end
  end.

End Views.

(** ** utils/pdf.py: what the report derives from the result *)

Module Pdf.

(** [_get_score_color]: the key of the colour in [self.colors]. *)
Definition get_score_color (score : Z) : string :=
  if 80 <=? score then "success"
  else if 50 <=? score then "warning"
  else "danger".

(** The status of one row of [_create_enhanced_score_breakdown_table]. *)
Definition breakdown_status (score : Z) : string :=
  if 70 <=? score then "Good"
  else if 40 <=? score then "Fair"
  else "Poor".

(** [f'{score}/100'], the score column of that row *)
Definition score_display (score : Z) : string := pretty score +:+ "/100".

(** The rows of [_create_priority_findings_table] under the heading:
    number, finding, severity and action of the first five
    recommendations. *)
Definition priority_row (i : Z) (rec : string)
    : string * string * string * string :=
  let severity := if i <=? 3 then "HIGH" else "MEDIUM" in
  let finding :=
    if (70 <? Z.of_nat (String.length rec)) then Py.take 70 rec +:+ "..."
    else rec in
  let action := if String.eqb severity "HIGH" then "Immediate" else "Soon" in
  ("#" +:+ pretty i, finding, severity, action).

Definition priority_findings (recommendations : list string)
    : list (string * string * string * string) :=
  let high_priority := take 5 recommendations in
  imap (fun i rec => priority_row (Z.of_nat i + 1) rec) high_priority.

End Pdf.

(** ** Vocabulary of the properties *)

(** [key in headers] as a value. *)
Definition present (headers : HeaderSet) (key : string) : bool :=
  bool_decide (is_Some (headers !! key)).

(** Every character of the string passes the test. *)
Fixpoint every_char (test : ascii -> bool) (s : string) : bool :=
  match s with
  | EmptyString => true
  | String c rest => test c && every_char test rest
  end.

(** The analysis that a scan stores: that of [analyze_headers], with the
    CMS issues when the CMS is detected. *)
Definition stored_analysis (fetched : HeaderSet) (body : string)
    : HeaderAnalysis :=
  if (Wordpress.check_wordpress body fetched).1
  then set_wordpress_issues
         (Wordpress.analyze_wordpress_headers body fetched).1
         (analyze_headers fetched).1
  else (analyze_headers fetched).1.


(** The answer of [dns_scan] when nothing resolves. *)
Definition nothing_resolved : Dns.DNSAnalysis :=
  {| Dns.dnssec := false; Dns.dmarc := false; Dns.dkim := false;
     Dns.spf := false; Dns.mx_records := []; Dns.error := None |}.


(** Instants in order, each less than a period after the one before. *)
Fixpoint close_together (period previous : Z) (instants : list Z) : Prop :=
  match instants with
  | [] => True
  | now :: later =>
      previous <= now < previous + period
      /\ close_together period now later
  end.


(** * Properties *)

(** ** The loops *)

Lemma append_when_filter {A} (cond : A -> bool) (msg : A -> string) xs issues :
  append_when cond msg xs issues = issues ++ map msg (List.filter cond xs).
Proof.
  unfold append_when. revert issues.
  induction xs as [|x xs IH]; intros issues; simpl.
  - by rewrite app_nil_r.
  - rewrite IH. destruct (cond x); simpl; [|done].
    by rewrite <- app_assoc.
Qed.

Lemma append_each_map {A} (msg : A -> string) xs out :
  append_each msg xs out = out ++ map msg xs.
Proof.
  unfold append_each. revert out.
  induction xs as [|x xs IH]; intros out; simpl.
  - by rewrite app_nil_r.
  - by rewrite IH, <- app_assoc.
Qed.

(** The three checks of [analyze_csp] append in the order they run. *)
Lemma analyze_csp_sections csp_header :
  analyze_csp csp_header =
    map (String.append "CSP contains unsafe directive: ")
        (List.filter (fun d => Py.str_in d csp_header) unsafe_directives)
    ++ map (String.append "CSP missing important directive: ")
           (List.filter (fun d => negb (Py.str_in d csp_header))
                        important_directives)
    ++ map (String.append "CSP contains overly permissive source: ")
           (List.filter (fun src => Py.str_in src csp_header)
                        permissive_sources).
Proof.
  unfold analyze_csp. rewrite !append_when_filter.
  by rewrite app_nil_l, <- app_assoc.
Qed.

(** ** The rules on the values the documentation names *)

Example analyze_cookies_bare :
  analyze_cookies "session=abc; Path=/" =
    ["Missing Secure flag"; "Missing HttpOnly flag";
     "Missing SameSite attribute"].
Proof. reflexivity. Qed.

Example analyze_hsts_short :
  analyze_hsts "max-age=100" =
    ["HSTS max-age too short: 100 (should be at least 31536000)";
     "HSTS missing includeSubDomains directive"].
Proof. reflexivity. Qed.

Example analyze_hsts_full :
  analyze_hsts "max-age=31536000; includeSubDomains" = [].
Proof. reflexivity. Qed.

Example analyze_hsts_second_max_age :
  analyze_hsts "max-age=abc; max-age=0012; includeSubDomains" =
    ["HSTS max-age too short: 12 (should be at least 31536000)"].
Proof. reflexivity. Qed.

Example is_weak_3des :
  Ssl.is_weak "TLS_RSA_WITH_3DES_EDE_CBC_SHA" = true
  /\ Ssl.is_weak "TLS_AES_128_GCM_SHA256" = false.
Proof. split; reflexivity. Qed.

Example ssl_scan_weak_session :
  let found := Ssl.ssl_scan Example.tls_weak "https://site.test/" in
  Ssl.error found = None
  /\ Ssl.weak_ciphers found = ["TLS_RSA_WITH_3DES_EDE_CBC_SHA"]
  /\ Ssl.supported_ciphers found =
       Some ["TLS_AES_128_GCM_SHA256"; "TLS_RSA_WITH_3DES_EDE_CBC_SHA"]
  /\ Ssl.compression_enabled found = true
  /\ (Ssl.expires_in_days <$> Ssl.certificate found) = Some (Ssl.Int 90).
Proof. vm_compute. by repeat split. Qed.

Example analyze_website_weak_session :
  match analyze_website Example.tls_weak "https://site.test/" false true with
  | Ok r =>
      security_score r = 54
      /\ score_breakdown r = budgets 13 17 15 10 5
      /\ risk_level r = "Medium"
      /\ Dns.mx_records <$> dns r = Some []
  | Err _ => False
  end.
Proof. vm_compute. by repeat split. Qed.

(** ** The scoring engine *)

Lemma deduct_headers p h s c o w :
  deduct "headers" p (budgets h s c o w) = budgets (h - p) s c o w.
Proof. reflexivity. Qed.

Lemma deduct_ssl p h s c o w :
  deduct "ssl" p (budgets h s c o w) = budgets h (s - p) c o w.
Proof. reflexivity. Qed.

Lemma deduct_wordpress p h s c o w :
  deduct "wordpress" p (budgets h s c o w) = budgets h s c o (w - p).
Proof. reflexivity. Qed.

Lemma clamp_budgets h s c o w :
  (fun budget => Z.max budget 0) <$> budgets h s c o w
  = budgets (Z.max h 0) (Z.max s 0) (Z.max c 0) (Z.max o 0) (Z.max w 0).
Proof. reflexivity. Qed.

Lemma budgets_lookup h s c o w category v :
  budgets h s c o w !! category = Some v ->
  (category = "headers" /\ v = h) \/ (category = "ssl" /\ v = s) \/
  (category = "cookies" /\ v = c) \/ (category = "cors" /\ v = o) \/
  (category = "wordpress" /\ v = w).
Proof.
  unfold budgets. intros H.
  repeat (apply lookup_insert_Some in H as [[<- <-]|[? H]]; [tauto|]).
  apply lookup_singleton_Some in H as [<- <-]. tauto.
Qed.

Lemma budgets_dom h s c o w : dom (budgets h s c o w) = dom initial_breakdown.
Proof.
  unfold initial_breakdown, budgets.
  by rewrite !dom_insert_L, !dom_singleton_L.
Qed.

(** The score and the breakdown in closed form. *)
Lemma score_closed_form ha tls :
  calculate_security_score ha tls =
  ( Z.max 0 (100 - 3 * len (missing_essential ha) - 2 * len (deprecated ha)
             - 2 * (len (csp_issues ha) + len (cookie_issues ha)
                    + len (cors_issues ha) + len (hsts_issues ha))
             - 3 * len (Ssl.weak_ciphers tls)
             - (if Ssl.compression_enabled tls then 10 else 0)
             - 2 * wordpress_count ha),
    budgets
      (Z.max 0 (40 - 3 * len (missing_essential ha) - 2 * len (deprecated ha)))
      (Z.max 0 (30 - 3 * len (Ssl.weak_ciphers tls)
                - (if Ssl.compression_enabled tls then 10 else 0)))
      15 10
      (Z.max 0 (5 - 2 * wordpress_count ha)) ).
Proof.
  unfold calculate_security_score, wordpress_count, initial_breakdown.
  destruct (Ssl.weak_ciphers tls) as [|cipher ciphers] eqn:Hweak;
    destruct (Ssl.compression_enabled tls);
    destruct (wordpress_issues ha) as [issues|];
    cbn [nonempty];
    rewrite ?deduct_headers, ?deduct_ssl, ?deduct_wordpress, clamp_budgets;
    f_equal; try (f_equal; unfold len; cbn [length]; lia);
    unfold len; cbn [length]; lia.
Qed.

(** C1.  The total is 100 minus every penalty, floored at 0.  The penalties
    of the CSP, cookie, CORS and HSTS issues are taken from the total only:
    the breakdown does not depend on them, its [headers] entry loses the
    penalties of the missing and deprecated headers, [ssl] those of the weak
    ciphers and of compression, [wordpress] those of the CMS issues, each
    floored at 0 on its own, and [cookies] and [cors] keep their budget. *)
Theorem calculate_security_score_total_and_breakdown
    (header_analysis : HeaderAnalysis) (ssl_analysis : Ssl.TLSAnalysis) :
  (calculate_security_score header_analysis ssl_analysis).1 =
    Z.max 0
      (100 - 3 * len (missing_essential header_analysis)
       - 2 * len (deprecated header_analysis)
       - 2 * (len (csp_issues header_analysis)
              + len (cookie_issues header_analysis)
              + len (cors_issues header_analysis)
              + len (hsts_issues header_analysis))
       - 3 * len (Ssl.weak_ciphers ssl_analysis)
       - (if Ssl.compression_enabled ssl_analysis then 10 else 0)
       - 2 * wordpress_count header_analysis)
  /\ (calculate_security_score header_analysis ssl_analysis).2 =
    budgets
      (Z.max 0 (40 - 3 * len (missing_essential header_analysis)
                - 2 * len (deprecated header_analysis)))
      (Z.max 0 (30 - 3 * len (Ssl.weak_ciphers ssl_analysis)
                - (if Ssl.compression_enabled ssl_analysis then 10 else 0)))
      15 10
      (Z.max 0 (5 - 2 * wordpress_count header_analysis))
  /\ (forall other : HeaderAnalysis,
        missing_essential other = missing_essential header_analysis ->
        deprecated other = deprecated header_analysis ->
        wordpress_issues other = wordpress_issues header_analysis ->
        (calculate_security_score other ssl_analysis).2
        = (calculate_security_score header_analysis ssl_analysis).2).
Proof.
  rewrite score_closed_form. split; [done|]. split; [done|].
  intros other Hmissing Hdeprecated Hwordpress.
  rewrite score_closed_form. unfold wordpress_count.
  by rewrite Hmissing, Hdeprecated, Hwordpress.
Qed.

(** C4.  The score is between 0 and 100, and the breakdown has the five
    categories of the initial one, each between 0 and its budget. *)
Theorem calculate_security_score_bounds
    (header_analysis : HeaderAnalysis) (ssl_analysis : Ssl.TLSAnalysis) :
  0 <= (calculate_security_score header_analysis ssl_analysis).1 <= 100
  /\ dom (calculate_security_score header_analysis ssl_analysis).2
     = dom initial_breakdown
  /\ (forall category v,
        (calculate_security_score header_analysis ssl_analysis).2 !! category
        = Some v ->
        exists budget,
          initial_breakdown !! category = Some budget /\ 0 <= v <= budget).
Proof.
  rewrite score_closed_form. cbn [fst snd].
  assert (0 <= len (missing_essential header_analysis)) by (unfold len; lia).
  assert (0 <= len (deprecated header_analysis)) by (unfold len; lia).
  assert (0 <= len (csp_issues header_analysis)) by (unfold len; lia).
  assert (0 <= len (cookie_issues header_analysis)) by (unfold len; lia).
  assert (0 <= len (cors_issues header_analysis)) by (unfold len; lia).
  assert (0 <= len (hsts_issues header_analysis)) by (unfold len; lia).
  assert (0 <= len (Ssl.weak_ciphers ssl_analysis)) by (unfold len; lia).
  assert (0 <= wordpress_count header_analysis)
    by (unfold wordpress_count, len; destruct (wordpress_issues _); lia).
  split; [|split].
  - destruct (Ssl.compression_enabled ssl_analysis); lia.
  - apply budgets_dom.
  - intros category v Hv.
    apply budgets_lookup in Hv
      as [[-> ->]|[[-> ->]|[[-> ->]|[[-> ->]|[-> ->]]]]].
    + exists 40. split; [done|lia].
    + exists 30. split; [done|].
      destruct (Ssl.compression_enabled ssl_analysis); lia.
    + exists 15. split; [done|lia].
    + exists 10. split; [done|lia].
    + exists 5. split; [done|lia].
Qed.

(** ** The risk tier *)

Lemma scan_risk_level w target narrative deep r :
  scan w target narrative deep = Ok r ->
  risk_level r = risk_level_of (security_score r).
Proof.
  unfold scan. intros H.
  destruct (fetch_headers_and_content w target) as [[fetched body]|e];
    [|discriminate].
  destruct (analyze_headers fetched) as [ha fetched1].
  destruct (Wordpress.check_wordpress body fetched1) as [is_wp fetched2].
  destruct is_wp;
    [destruct (Wordpress.analyze_wordpress_headers body fetched2)
       as [issues fetched3]|];
    destruct (calculate_security_score _ _) as [score breakdown];
    destruct (categorize_checks _ _) as [passed failed];
    destruct narrative; injection H as <-; reflexivity.
Qed.

(** C5.  The risk level is a function of the score alone: High below 40,
    Medium from 40 to 69, Low from 70 on; and it is the level stored in
    every result of a scan. *)
Theorem risk_level_of_score (score : Z) :
  (score < 40 -> risk_level_of score = "High")
  /\ (40 <= score < 70 -> risk_level_of score = "Medium")
  /\ (70 <= score -> risk_level_of score = "Low")
  /\ risk_level_of 39 = "High" /\ risk_level_of 40 = "Medium"
  /\ risk_level_of 69 = "Medium" /\ risk_level_of 70 = "Low"
  /\ (forall w target narrative deep r,
        analyze_website w target narrative deep = Ok r ->
        risk_level r = risk_level_of (security_score r)).
Proof.
  unfold risk_level_of. repeat split; try reflexivity.
  - intros H. by rewrite (proj2 (Z.ltb_lt _ _) H).
  - intros [H1 H2].
    by rewrite (proj2 (Z.ltb_ge _ _) H1), (proj2 (Z.ltb_lt _ _) H2).
  - intros H.
    rewrite (proj2 (Z.ltb_ge score 40)), (proj2 (Z.ltb_ge score 70)); [done|lia|lia].
  - intros w target narrative deep r H. unfold analyze_website in H.
    destruct (scan w target narrative deep) as [r'|e] eqn:Hscan;
      [|discriminate].
    injection H as <-. exact (scan_risk_level _ _ _ _ _ Hscan).
Qed.

(** ** The header rule engine *)

Create HintDb reads discriminated.

Lemma read_only_ret {A} (a : A) : read_only (mret a).
Proof. by intros headers. Qed.

Lemma read_only_bind {A B} (m : Reads A) (k : A -> Reads B) :
  read_only m -> (forall a, read_only (k a)) -> read_only (m ≫= k).
Proof.
  intros Hm Hk headers. unfold mbind, Reads_bind.
  specialize (Hm headers). destruct (m headers) as [a headers'].
  simpl in Hm. subst headers'. apply Hk.
Qed.

Lemma read_only_contains key : read_only (dict_contains key).
Proof. by intros headers. Qed.

Lemma read_only_lookup key : read_only (dict_lookup key).
Proof. by intros headers. Qed.

Lemma read_only_get key default : read_only (dict_get key default).
Proof. by intros headers. Qed.

Lemma read_only_values : read_only dict_values.
Proof. by intros headers. Qed.

#[local] Hint Resolve read_only_ret read_only_bind read_only_contains
  read_only_lookup read_only_get read_only_values : reads.

Lemma read_only_select keep names : read_only (select_names keep names).
Proof.
  induction names as [|h rest IH]; simpl; [apply read_only_ret|].
  apply read_only_bind; [apply read_only_contains|]. intros present.
  apply read_only_bind; [exact IH|]. intros chosen. apply read_only_ret.
Qed.

#[local] Hint Resolve read_only_select : reads.

Lemma read_only_sub_rule key rule : read_only (sub_rule key rule).
Proof. unfold sub_rule. auto with reads. Qed.

Lemma read_only_additional : read_only check_additional_headers.
Proof. unfold check_additional_headers. auto 10 with reads. Qed.

Lemma read_only_owasp : read_only check_owasp_compliance.
Proof. unfold check_owasp_compliance. auto 20 with reads. Qed.

#[local] Hint Resolve read_only_sub_rule read_only_additional
  read_only_owasp : reads.

Lemma read_only_analyze_headers : read_only analyze_headers.
Proof. unfold analyze_headers. auto 20 with reads. Qed.

(** C8.  [analyze_headers] leaves the dictionary it is handed as it was, and
    a second call on that dictionary returns the result of the first. *)
Theorem analyze_headers_leaves_input (headers : HeaderSet) :
  (analyze_headers headers).2 = headers
  /\ (analyze_headers (analyze_headers headers).2).1
     = (analyze_headers headers).1
  /\ (analyze_headers (analyze_headers headers).2).2 = headers.
Proof.
  pose proof (read_only_analyze_headers headers) as Hsame.
  rewrite Hsame. by repeat split.
Qed.

(** C6.  With [content-security-policy: default-src 'self'] as the only
    header, the missing headers are the other nine essential ones in the
    order of the list, and the CSP issues are the three missing directives
    [script-src], [object-src] and [base-uri], nothing else. *)
Theorem analyze_headers_csp_only :
  let found :=
    (analyze_headers
       {[ "content-security-policy" := "default-src 'self'" ]}).1 in
  missing_essential found =
    ["x-content-type-options"; "x-frame-options";
     "strict-transport-security"; "x-xss-protection"; "referrer-policy";
     "permissions-policy"; "cross-origin-opener-policy";
     "cross-origin-embedder-policy"; "cross-origin-resource-policy"]
  /\ missing_essential found =
     List.filter (fun h => negb (String.eqb h "content-security-policy"))
                 essential_headers
  /\ csp_issues found =
    ["CSP missing important directive: script-src";
     "CSP missing important directive: object-src";
     "CSP missing important directive: base-uri"].
Proof. vm_compute. by repeat split. Qed.

(** C10.  A value that contains [max-age] but no [max-age=] followed by a
    digit gets neither the missing-max-age issue nor the short-max-age one:
    the only issue it can get is the one about [includeSubDomains]. *)
Theorem analyze_hsts_unparsed_max_age (hsts_header : string) :
  Py.str_in "max-age" hsts_header = true ->
  search_max_age hsts_header = None ->
  analyze_hsts hsts_header =
    if Py.str_in "includesubdomains" (Py.lower hsts_header)
    then []
    else ["HSTS missing includeSubDomains directive"].
Proof.
  intros Hpresent Hnomatch. unfold analyze_hsts.
  rewrite Hpresent, Hnomatch. simpl.
  by destruct (Py.str_in "includesubdomains" (Py.lower hsts_header)).
Qed.

Lemma analyze_hsts_unparsed_max_age_witness :
  analyze_hsts "max-age=abc" = ["HSTS missing includeSubDomains directive"].
Proof.
  exact (analyze_hsts_unparsed_max_age "max-age=abc" eq_refl eq_refl).
Defined.

(** ** The TLS probe *)

(** An exception of the [try] body comes before its first assignment:
    [results] is still the dictionary the body started with. *)
Lemma probe_raises_before_assigning w target results results' e :
  Ssl.probe w target results = (results', Err e) -> results' = results.
Proof.
  unfold Ssl.probe, mbind, Ssl.Try_bind, mret, Ssl.Try_ret,
    Ssl.call, Ssl.raise, Ssl.assign.
  intros H. repeat case_match; simplify_eq; reflexivity.
Qed.

(** A body that ends normally does not write the key [error]. *)
Lemma probe_ok_keeps_error w target results results' u :
  Ssl.probe w target results = (results', Ok u) ->
  Ssl.error results' = Ssl.error results.
Proof.
  unfold Ssl.probe, mbind, Ssl.Try_bind, mret, Ssl.Try_ret,
    Ssl.call, Ssl.raise, Ssl.assign.
  intros H. repeat case_match; simplify_eq; reflexivity.
Qed.

Lemma ssl_scan_error w target :
  Ssl.error (Ssl.ssl_scan w target) =
    match (Ssl.probe w target Ssl.initial_results).2 with
    | Err e => Some e
    | Ok _ => None
    end.
Proof.
  unfold Ssl.ssl_scan.
  destruct (Ssl.probe w target Ssl.initial_results) as [results [u|e]] eqn:H.
  - by rewrite (probe_ok_keeps_error _ _ _ _ _ H).
  - reflexivity.
Qed.

Lemma ssl_scan_raised w target e :
  (Ssl.probe w target Ssl.initial_results).2 = Err e ->
  Ssl.ssl_scan w target = Ssl.set_error e Ssl.initial_results.
Proof.
  unfold Ssl.ssl_scan.
  destruct (Ssl.probe w target Ssl.initial_results) as [results [u|e']] eqn:H;
    simpl; intros He; [discriminate|].
  injection He as ->.
  by rewrite (probe_raises_before_assigning _ _ _ _ _ H).
Qed.

(** ** Recommendations *)

(** C7.  The recommendations are the sections in this order: missing
    headers, deprecated headers, CSP, cookie, CORS, HSTS and CMS issues, one
    message naming all weak ciphers when there are any, the compression
    message when compression is on, and last the TLS error when the
    analysis carries one; the analysis of [ssl_scan] carries one exactly
    when the body of the probe raised. *)
Theorem generate_recommendations_sections
    (header_analysis : HeaderAnalysis) (ssl_analysis : Ssl.TLSAnalysis) :
  generate_recommendations header_analysis ssl_analysis =
    map (String.append "Add missing security header: ")
        (missing_essential header_analysis)
    ++ map (String.append "Remove deprecated header: ")
           (deprecated header_analysis)
    ++ map (String.append "CSP issue: ") (csp_issues header_analysis)
    ++ map (String.append "Cookie security issue: ")
           (cookie_issues header_analysis)
    ++ map (String.append "CORS issue: ") (cors_issues header_analysis)
    ++ map (String.append "HSTS issue: ") (hsts_issues header_analysis)
    ++ map (String.append "WordPress issue: ")
           (default [] (wordpress_issues header_analysis))
    ++ (if nonempty (Ssl.weak_ciphers ssl_analysis)
        then ["Disable weak cipher suites: "
              +:+ Py.join ", " (Ssl.weak_ciphers ssl_analysis)]
        else [])
    ++ (if Ssl.compression_enabled ssl_analysis
        then ["Disable TLS compression (CRIME vulnerability risk)"]
        else [])
    ++ (match Ssl.error ssl_analysis with
        | Some e => ["Fix SSL error: " +:+ e]
        | None => []
        end)
  /\ (forall w target,
        Ssl.error (Ssl.ssl_scan w target) =
          match (Ssl.probe w target Ssl.initial_results).2 with
          | Err e => Some e
          | Ok _ => None
          end).
Proof.
  split; [|exact ssl_scan_error].
  unfold generate_recommendations.
  destruct (wordpress_issues header_analysis) as [issues|];
    destruct (nonempty (Ssl.weak_ciphers ssl_analysis));
    destruct (Ssl.compression_enabled ssl_analysis);
    destruct (Ssl.error ssl_analysis) as [e|];
    rewrite !append_each_map; simpl;
    rewrite <- ?app_assoc, ?app_nil_r; reflexivity.
Qed.

(** ** The orchestrator *)

(** Once the fetch has succeeded the scan returns a result, and the result
    carries the TLS analysis of [ssl_scan] and the literal status 200. *)
Lemma scan_after_fetch w target narrative deep fetched body :
  fetch_headers_and_content w target = Ok (fetched, body) ->
  exists r,
    scan w target narrative deep = Ok r
    /\ ssl r = Ssl.ssl_scan w target /\ status_code r = 200.
Proof.
  intros Hfetch. unfold scan. rewrite Hfetch.
  destruct (analyze_headers fetched) as [ha fetched1].
  destruct (Wordpress.check_wordpress body fetched1) as [is_wp fetched2].
  destruct is_wp;
    [destruct (Wordpress.analyze_wordpress_headers body fetched2)
       as [issues fetched3]|];
    destruct (calculate_security_score _ _) as [score breakdown];
    destruct (categorize_checks _ _) as [passed failed];
    destruct narrative; eexists; repeat split.
Qed.

Lemma scan_fetch_failure w target narrative deep e :
  fetch_headers_and_content w target = Err e ->
  scan w target narrative deep = Err e.
Proof. intros Hfetch. unfold scan. by rewrite Hfetch. Qed.

(** Whatever the body raises, [analyze_website] raises an [AnalysisError]. *)
Lemma analyze_website_raises_AnalysisError w target narrative deep e :
  analyze_website w target narrative deep = Err e ->
  exists cause,
    scan w target narrative deep = Err cause
    /\ e = AnalysisError ("Analysis failed: " +:+ exn_str cause).
Proof.
  unfold analyze_website.
  destruct (scan w target narrative deep) as [r|cause]; [discriminate|].
  intros H. injection H as <-. by exists cause.
Qed.



(** C9.  Every result that [analyze_website] returns has the status code
    200: the field is a literal, the status of the response is not read. *)
Theorem analyze_website_status_code (w : World) (target : string)
    (narrative deep : bool) (r : AnalysisResult) :
  analyze_website w target narrative deep = Ok r -> status_code r = 200.
Proof.
  unfold analyze_website. intros H.
  destruct (scan w target narrative deep) as [r'|e] eqn:Hscan; [|discriminate].
  injection H as <-. unfold scan in Hscan.
  destruct (fetch_headers_and_content w target) as [[fetched body]|e] eqn:Hfetch;
    [|discriminate].
  destruct (scan_after_fetch w target narrative deep _ _ Hfetch)
    as (r & Hscan' & _ & Hstatus).
  unfold scan in Hscan'. rewrite Hfetch in Hscan'.
  rewrite Hscan in Hscan'. by injection Hscan' as <-.
Qed.

(** The site of [Example.tls_refused] answers 204; the result says 200. *)
Lemma analyze_website_status_code_witness :
  response_status Example.no_content = 204
  /\ match analyze_website Example.tls_refused "https://site.test/" false false
     with
     | Ok r => status_code r = 200
     | Err _ => False
     end.
Proof.
  split; [reflexivity|].
  destruct (analyze_website Example.tls_refused "https://site.test/" false false)
    as [r|e] eqn:H.
  - exact (analyze_website_status_code _ _ _ _ r H).
  - vm_compute in H. discriminate H.
Defined.

Lemma analyze_website_after_failed_fetch w target narrative deep cause :
  http_get w target = Err (HTTPError cause) ->
  analyze_website w target narrative deep =
    Err (AnalysisError
           ("Analysis failed: Request to target website failed: " +:+ cause)).
Proof.
  intros Hget. unfold analyze_website.
  rewrite (scan_fetch_failure w target narrative deep
             (RequestFailedError
                ("Request to target website failed: " +:+ cause))).
  - reflexivity.
  - unfold fetch_headers_and_content. by rewrite Hget.
Qed.

(** C2.  When the fetch fails, [fetch_headers_and_content] raises a
    [RequestFailedError], and [analyze_website] hands its caller an
    [AnalysisError] that wraps it. *)
Theorem analyze_website_wraps_RequestFailedError :
  fetch_headers_and_content Example.unreachable "https://down.test/"
  = Err (RequestFailedError
           "Request to target website failed: [Errno -2] Name or service not known")
  /\ analyze_website Example.unreachable "https://down.test/" false false
     = Err (AnalysisError
              "Analysis failed: Request to target website failed: [Errno -2] Name or service not known").
Proof. split; reflexivity. Qed.

(** * Further properties *)

(** ** Substrings *)

Lemma append_cons c (a b : string) : String c a +:+ b = String c (a +:+ b).
Proof. reflexivity. Qed.

Lemma prefix_spec a b :
  String.prefix a b = true <-> exists q, b = a +:+ q.
Proof.
  revert b. induction a as [|c a IH]; intros b.
  - split; [intros _; by exists b|by destruct b].
  - destruct b as [|d b]; simpl; [split; [done|by intros [q Hq]]|].
    destruct (ascii_dec c d) as [->|Hne]; simpl.
    + rewrite IH. split; intros [q Hq]; exists q;
        rewrite append_cons in *; congruence.
    + split; [done|]. intros [q Hq]. rewrite append_cons in Hq. congruence.
Qed.

Lemma str_in_cons a d b :
  Py.str_in a (String d b) = String.prefix a (String d b) || Py.str_in a b.
Proof. reflexivity. Qed.

Lemma str_in_nil a : Py.str_in a "" = String.prefix a "".
Proof. unfold Py.str_in. apply orb_false_r. Qed.

Lemma str_in_spec a b :
  Py.str_in a b = true <-> exists p q, b = p +:+ a +:+ q.
Proof.
  induction b as [|d b IH].
  - rewrite str_in_nil, prefix_spec. split.
    + intros [q Hq]. by exists "", q.
    + intros ([|c p] & q & Hq); [by exists q|discriminate].
  - rewrite str_in_cons, orb_true_iff, prefix_spec, IH. split.
    + intros [[q Hq]|(p & q & Hq)].
      * by exists "", q.
      * exists (String d p), q. by rewrite append_cons, Hq.
    + intros ([|c p] & q & Hq).
      * left. by exists q.
      * right. exists p, q. rewrite append_cons in Hq. congruence.
Qed.

Lemma append_assoc (a b c : string) : (a +:+ b) +:+ c = a +:+ b +:+ c.
Proof.
  induction a as [|x a IH]; [done|]. by rewrite !append_cons, IH.
Qed.

Lemma append_nil_r (a : string) : a +:+ "" = a.
Proof. induction a as [|x a IH]; [done|]. by rewrite append_cons, IH. Qed.

Lemma str_in_trans a b c :
  Py.str_in a b = true -> Py.str_in b c = true -> Py.str_in a c = true.
Proof.
  rewrite !str_in_spec. intros (p & q & ->) (p' & q' & ->).
  exists (p' +:+ p), (q +:+ q'). by rewrite !append_assoc.
Qed.

Lemma str_in_append_r needle p s :
  Py.str_in needle s = true -> Py.str_in needle (p +:+ s) = true.
Proof.
  rewrite !str_in_spec. intros (p' & q & ->).
  exists (p +:+ p'), q. by rewrite !append_assoc.
Qed.

Lemma str_in_append_l needle s q :
  Py.str_in needle s = true -> Py.str_in needle (s +:+ q) = true.
Proof.
  rewrite !str_in_spec. intros (p & q' & ->).
  exists p, (q' +:+ q). by rewrite !append_assoc.
Qed.

Lemma prefix_str_in a b : String.prefix a b = true -> Py.str_in a b = true.
Proof.
  intros H. destruct b; [by rewrite str_in_nil|by rewrite str_in_cons, H].
Qed.



Lemma mem_true x xs : Py.mem x xs = true <-> In x xs.
Proof.
  unfold Py.mem. rewrite existsb_exists. split.
  - intros (y & Hy & Heq). apply String.eqb_eq in Heq. by subst.
  - intros H. exists x. split; [done|apply String.eqb_refl].
Qed.

Lemma mem_filter (f : string -> bool) x xs :
  Py.mem x (List.filter f xs) = f x && Py.mem x xs.
Proof.
  apply eq_true_iff_eq. rewrite andb_true_iff, !mem_true, filter_In. tauto.
Qed.

(** ** Reads of the header dictionary, run *)

Lemma select_names_run keep names headers :
  select_names keep names headers =
    (List.filter (fun h => keep (present headers h)) names, headers).
Proof.
  induction names as [|h rest IH]; [done|].
  cbn [select_names]. unfold mbind, Reads_bind, dict_contains.
  rewrite IH. unfold present. simpl.
  by destruct (keep (bool_decide (is_Some (headers !! h)))).
Qed.

Lemma analyze_headers_run headers :
  analyze_headers headers =
    ({| missing_essential :=
          List.filter (fun h => negb (present headers h)) essential_headers;
        deprecated :=
          List.filter (fun h => present headers h) deprecated_headers;
        insecure := [];
        csp_issues :=
          from_option analyze_csp [] (headers !! "content-security-policy");
        cookie_issues :=
          from_option analyze_cookies [] (headers !! "set-cookie");
        cors_issues :=
          from_option analyze_cors []
                      (headers !! "access-control-allow-origin");
        hsts_issues :=
          from_option analyze_hsts []
                      (headers !! "strict-transport-security");
        additional_headers := (check_additional_headers headers).1;
        owasp_compliance := (check_owasp_compliance headers).1;
        wordpress_issues := None |}, headers).
Proof.
  unfold analyze_headers, mbind, Reads_bind.
  rewrite (surjective_pairing (check_additional_headers headers)),
    (read_only_additional headers).
  rewrite (surjective_pairing (check_owasp_compliance headers)),
    (read_only_owasp headers).
  rewrite !select_names_run.
  unfold sub_rule, mbind, Reads_bind, dict_lookup, mret, Reads_ret, id.
  simpl. repeat f_equal; by destruct (headers !! _).
Qed.

Lemma present_true headers key :
  present headers key = true <-> is_Some (headers !! key).
Proof. unfold present. apply bool_decide_eq_true. Qed.

Lemma present_false headers key :
  present headers key = false <-> headers !! key = None.
Proof.
  unfold present. rewrite bool_decide_eq_false, <- eq_None_not_Some. done.
Qed.

(** ** The header rule engine, further *)

(** X1.  A header is reported missing exactly when it is one of the ten
    essential headers and not a key of the dictionary, and deprecated exactly
    when it is one of the six deprecated ones and a key; a header that is
    reported missing has no issue of its own rule. *)
Theorem analyze_headers_missing_and_deprecated (headers : HeaderSet) :
  let found := (analyze_headers headers).1 in
  (forall h, In h (missing_essential found)
             <-> In h essential_headers /\ headers !! h = None)
  /\ (forall h, In h (deprecated found)
                <-> In h deprecated_headers /\ is_Some (headers !! h))
  /\ (In "content-security-policy" (missing_essential found)
      -> csp_issues found = [])
  /\ (In "strict-transport-security" (missing_essential found)
      -> hsts_issues found = []).
Proof.
  rewrite analyze_headers_run. cbn [fst missing_essential deprecated
    csp_issues hsts_issues].
  split; [|split; [|split]].
  - intros h. rewrite filter_In, negb_true_iff, present_false. tauto.
  - intros h. rewrite filter_In, present_true. tauto.
  - intros H. apply filter_In in H as [_ H].
    apply negb_true_iff, present_false in H. by rewrite H.
  - intros H. apply filter_In in H as [_ H].
    apply negb_true_iff, present_false in H. by rewrite H.
Qed.

Lemma check_owasp_run headers :
  (check_owasp_compliance headers).1 =
    {| content_security_policy := present headers "content-security-policy";
       x_content_type_options :=
         String.eqb
           (Py.lower (default "" (headers !! "x-content-type-options")))
           "nosniff";
       x_frame_options := present headers "x-frame-options";
       strict_transport_security :=
         present headers "strict-transport-security";
       x_xss_protection := present headers "x-xss-protection";
       referrer_policy := present headers "referrer-policy";
       permissions_policy := present headers "permissions-policy";
       cross_origin_opener_policy :=
         present headers "cross-origin-opener-policy";
       cross_origin_embedder_policy :=
         present headers "cross-origin-embedder-policy";
       cross_origin_resource_policy :=
         present headers "cross-origin-resource-policy" |}.
Proof.
  unfold check_owasp_compliance, mbind, Reads_bind, dict_contains, dict_get,
    mret, Reads_ret, present. simpl. by destruct (headers !! _).
Qed.

Lemma mem_missing headers h :
  Py.mem h (missing_essential (analyze_headers headers).1)
  = negb (present headers h) && Py.mem h essential_headers.
Proof.
  rewrite analyze_headers_run. cbn [fst missing_essential].
  apply (mem_filter (fun h => negb (present headers h))).
Qed.

(** X2.  The two views of the same dictionary agree: each of the nine
    presence flags of [owasp_compliance] is the negation of "reported
    missing", and the flag of [x-content-type-options], which also looks at
    the value, is only set for a header that is not reported missing. *)
Theorem owasp_compliance_agrees_with_missing (headers : HeaderSet) :
  let found := (analyze_headers headers).1 in
  let missing h := Py.mem h (missing_essential found) in
  let flags := owasp_compliance found in
  content_security_policy flags = negb (missing "content-security-policy")
  /\ x_frame_options flags = negb (missing "x-frame-options")
  /\ strict_transport_security flags
     = negb (missing "strict-transport-security")
  /\ x_xss_protection flags = negb (missing "x-xss-protection")
  /\ referrer_policy flags = negb (missing "referrer-policy")
  /\ permissions_policy flags = negb (missing "permissions-policy")
  /\ cross_origin_opener_policy flags
     = negb (missing "cross-origin-opener-policy")
  /\ cross_origin_embedder_policy flags
     = negb (missing "cross-origin-embedder-policy")
  /\ cross_origin_resource_policy flags
     = negb (missing "cross-origin-resource-policy")
  /\ (x_content_type_options flags = true
      -> missing "x-content-type-options" = false).
Proof.
  cbv beta zeta. rewrite !mem_missing.
  rewrite analyze_headers_run. cbn [fst owasp_compliance].
  rewrite check_owasp_run.
  cbn [content_security_policy x_content_type_options x_frame_options
       strict_transport_security x_xss_protection referrer_policy
       permissions_policy cross_origin_opener_policy
       cross_origin_embedder_policy cross_origin_resource_policy].
  change (Py.mem _ essential_headers) with true.
  rewrite !andb_true_r, !negb_involutive.
  repeat split.
  intros H. apply negb_false_iff, present_true.
  destruct (headers !! "x-content-type-options"); [done|discriminate].
Qed.

(** ** The fetch *)





(** ** The CSP rule *)

Lemma filter_nil_iff {A} (f : A -> bool) xs :
  List.filter f xs = [] <-> forall x, In x xs -> f x = false.
Proof.
  induction xs as [|x xs IH]; simpl; [by split|].
  destruct (f x) eqn:Hx.
  - split; [done|]. intros H. specialize (H x (or_introl eq_refl)). congruence.
  - rewrite IH. split.
    + intros H y [<-|Hy]; [done|by apply H].
    + intros H y Hy. apply H. by right.
Qed.

(** X4.  A policy gets no issue exactly when it contains none of the three
    unsafe keywords, all four directive names and none of the five
    permissive sources, each as a plain substring; and it never gets more
    than twelve issues. *)
Theorem analyze_csp_clean (csp_header : string) :
  (analyze_csp csp_header = []
   <-> (forall d, In d unsafe_directives -> Py.str_in d csp_header = false)
       /\ (forall d, In d important_directives
                     -> Py.str_in d csp_header = true)
       /\ (forall src, In src permissive_sources
                       -> Py.str_in src csp_header = false))
  /\ (length (analyze_csp csp_header) <= 12)%nat.
Proof.
  rewrite analyze_csp_sections. split.
  - split.
    + intros H. apply app_eq_nil in H as [H1 H].
      apply app_eq_nil in H as [H2 H3].
      apply map_eq_nil in H1, H2, H3.
      pose proof (proj1 (filter_nil_iff _ _) H1).
      pose proof (proj1 (filter_nil_iff _ _) H2) as H2'.
      pose proof (proj1 (filter_nil_iff _ _) H3).
      split; [done|]. split; [|done].
      intros d Hd. by apply negb_false_iff, H2'.
    + intros (H1 & H2 & H3).
      apply (proj2 (filter_nil_iff _ _)) in H1, H3.
      assert (List.filter (fun d => negb (Py.str_in d csp_header))
                important_directives = []) as ->.
      { apply filter_nil_iff. intros d Hd. by apply negb_false_iff, H2. }
      by rewrite H1, H3.
  - rewrite !length_app, !length_map.
    pose proof (filter_length_le (fun d => Py.str_in d csp_header)
                  unsafe_directives).
    pose proof (filter_length_le (fun d => negb (Py.str_in d csp_header))
                  important_directives).
    pose proof (filter_length_le (fun src => Py.str_in src csp_header)
                  permissive_sources).
    simpl in *. lia.
Qed.

(** X5.  A policy that contains the quoted keyword ['unsafe-inline'] gets
    two issues for it: the unsafe directive and the permissive source. *)
Theorem analyze_csp_counts_unsafe_inline_twice (csp_header : string) :
  Py.str_in "'unsafe-inline'" csp_header = true ->
  In "CSP contains unsafe directive: unsafe-inline" (analyze_csp csp_header)
  /\ In "CSP contains overly permissive source: 'unsafe-inline'"
        (analyze_csp csp_header).
Proof.
  intros Hquoted.
  assert (Py.str_in "unsafe-inline" csp_header = true) as Hbare
    by (apply (str_in_trans _ "'unsafe-inline'"); [reflexivity|done]).
  rewrite analyze_csp_sections. split.
  - apply in_or_app. left.
    apply (in_map (String.append "CSP contains unsafe directive: ")),
      filter_In.
    split; [by left|done].
  - apply in_or_app. right. apply in_or_app. right.
    apply (in_map (String.append "CSP contains overly permissive source: ")),
      filter_In.
    split; [right; by left|done].
Qed.

Lemma analyze_csp_counts_unsafe_inline_twice_witness :
  In "CSP contains unsafe directive: unsafe-inline"
     (analyze_csp middleware_csp)
  /\ In "CSP contains overly permissive source: 'unsafe-inline'"
        (analyze_csp middleware_csp).
Proof.
  exact (analyze_csp_counts_unsafe_inline_twice middleware_csp eq_refl).
Defined.

(** ** The cookie rule *)

Lemma prefix_nil_l s : String.prefix "" s = true.
Proof. by destruct s. Qed.

Lemma prefix_nil_r c s : String.prefix (String c s) "" = false.
Proof. reflexivity. Qed.

Lemma prefix_cons a s1 b s2 :
  String.prefix (String a s1) (String b s2)
  = if ascii_dec a b then String.prefix s1 s2 else false.
Proof. reflexivity. Qed.

Lemma split_not_nil sep s : Py.split sep s <> [].
Proof.
  destruct s as [|c s]; simpl; [done|].
  destruct (Ascii.eqb c sep); [done|]. by destruct (Py.split sep s).
Qed.

(** A needle without the separator starts a string exactly when it starts
    the first piece of the string. *)
Lemma prefix_first_piece sep needle s piece pieces :
  every_char (fun c => negb (Ascii.eqb c sep)) needle = true ->
  Py.split sep s = piece :: pieces ->
  String.prefix needle piece = String.prefix needle s.
Proof.
  revert needle piece pieces.
  induction s as [|c s IH]; intros needle piece pieces Hneedle Hsplit.
  - injection Hsplit as <- <-. done.
  - simpl in Hsplit. destruct needle as [|n needle].
    { by rewrite !prefix_nil_l. }
    simpl in Hneedle. apply andb_true_iff in Hneedle as [Hn Hneedle].
    apply negb_true_iff, Ascii.eqb_neq in Hn.
    destruct (Ascii.eqb c sep) eqn:Hc.
    + apply Ascii.eqb_eq in Hc as ->. injection Hsplit as <- <-.
      rewrite prefix_cons. by destruct (ascii_dec n sep).
    + destruct (Py.split sep s) as [|p ps] eqn:Hs;
        [by apply split_not_nil in Hs|].
      injection Hsplit as <- <-. rewrite !prefix_cons.
      destruct (ascii_dec n c); [|done]. by apply (IH _ _ ps).
Qed.

(** A needle without the separator is in a string exactly when it is in one
    of its pieces. *)
Lemma any_split sep needle s :
  needle <> "" ->
  every_char (fun c => negb (Ascii.eqb c sep)) needle = true ->
  Py.any (Py.str_in needle) (Py.split sep s) = Py.str_in needle s.
Proof.
  intros Hne Hneedle. destruct needle as [|n needle]; [done|].
  pose proof Hneedle as Hall.
  simpl in Hneedle. apply andb_true_iff in Hneedle as [Hn Hneedle].
  apply negb_true_iff, Ascii.eqb_neq in Hn.
  induction s as [|c s IH].
  - done.
  - rewrite str_in_cons. simpl Py.split.
    destruct (Ascii.eqb c sep) eqn:Hc.
    + apply Ascii.eqb_eq in Hc as ->.
      change (Py.any ?f (?x :: ?xs)) with (f x || Py.any f xs).
      rewrite IH, str_in_nil, prefix_nil_r, prefix_cons.
      by destruct (ascii_dec n sep).
    + destruct (Py.split sep s) as [|p ps] eqn:Hs;
        [by apply split_not_nil in Hs|].
      change (Py.any ?f (?x :: ?xs)) with (f x || Py.any f xs) in *.
      rewrite str_in_cons, <- orb_assoc, IH. f_equal.
      rewrite !prefix_cons. destruct (ascii_dec n c); [|done].
      by apply (prefix_first_piece sep _ _ _ ps).
Qed.

Lemma is_space_lower c : Py.is_space (Py.lower_char c) = Py.is_space c.
Proof. by destruct c as [[] [] [] [] [] [] [] []]. Qed.

Lemma semicolon_lower c :
  Ascii.eqb (Py.lower_char c) ";" = Ascii.eqb c ";".
Proof. by destruct c as [[] [] [] [] [] [] [] []]. Qed.

Lemma split_lower s :
  Py.split ";" (Py.lower s) = map Py.lower (Py.split ";" s).
Proof.
  induction s as [|c s IH]; [done|].
  cbn [Py.lower Py.split]. rewrite semicolon_lower, IH.
  destruct (Ascii.eqb c ";"); [done|].
  destruct (Py.split ";" s) as [|p ps] eqn:Hs;
    [by apply split_not_nil in Hs|done].
Qed.

Lemma lstrip_lower s : Py.lstrip (Py.lower s) = Py.lower (Py.lstrip s).
Proof.
  induction s as [|c s IH]; [done|].
  cbn [Py.lower Py.lstrip]. rewrite is_space_lower.
  by destruct (Py.is_space c).
Qed.

Lemma rstrip_lower s : Py.rstrip (Py.lower s) = Py.lower (Py.rstrip s).
Proof.
  induction s as [|c s IH]; [done|].
  cbn [Py.lower Py.rstrip]. rewrite is_space_lower, IH.
  destruct (Py.rstrip s); simpl; by destruct (Py.is_space c).
Qed.

Lemma strip_lower s : Py.strip (Py.lower s) = Py.lower (Py.strip s).
Proof. unfold Py.strip. by rewrite lstrip_lower, rstrip_lower. Qed.

Lemma str_in_lstrip n needle s :
  Py.is_space n = false ->
  Py.str_in (String n needle) (Py.lstrip s) = Py.str_in (String n needle) s.
Proof.
  intros Hn. induction s as [|c s IH]; [done|].
  cbn [Py.lstrip]. destruct (Py.is_space c) eqn:Hc; [|done].
  rewrite IH, str_in_cons, prefix_cons.
  destruct (ascii_dec n c); [congruence|done].
Qed.

Lemma rstrip_cons c s :
  Py.rstrip (String c s) =
    match Py.rstrip s with
    | EmptyString => if Py.is_space c then "" else String c ""
    | kept => String c kept
    end.
Proof. reflexivity. Qed.

Lemma prefix_rstrip needle s :
  every_char (fun c => negb (Py.is_space c)) needle = true ->
  String.prefix needle (Py.rstrip s) = String.prefix needle s.
Proof.
  revert needle. induction s as [|c s IH]; intros needle Hneedle; [done|].
  destruct needle as [|n needle]; [by rewrite !prefix_nil_l|].
  simpl in Hneedle. apply andb_true_iff in Hneedle as [Hn Hneedle].
  apply negb_true_iff in Hn.
  specialize (IH needle Hneedle).
  rewrite rstrip_cons, (prefix_cons n needle c s).
  destruct (Py.rstrip s) as [|k ks].
  - destruct (Py.is_space c) eqn:Hc.
    + rewrite prefix_nil_r. destruct (ascii_dec n c); [congruence|done].
    + rewrite prefix_cons. by destruct (ascii_dec n c).
  - rewrite prefix_cons. by destruct (ascii_dec n c).
Qed.

Lemma str_in_rstrip needle s :
  every_char (fun c => negb (Py.is_space c)) needle = true ->
  Py.str_in needle (Py.rstrip s) = Py.str_in needle s.
Proof.
  intros Hneedle. induction s as [|c s IH]; [done|].
  pose proof (prefix_rstrip needle (String c s) Hneedle) as Hprefix.
  rewrite rstrip_cons in *. rewrite str_in_cons.
  destruct (Py.rstrip s) as [|k ks].
  - rewrite <- IH, <- Hprefix.
    destruct (Py.is_space c).
    + rewrite str_in_nil. by rewrite orb_diag.
    + by rewrite str_in_cons.
  - by rewrite str_in_cons, Hprefix, IH.
Qed.

Lemma str_in_strip n needle s :
  every_char (fun c => negb (Py.is_space c)) (String n needle) = true ->
  Py.str_in (String n needle) (Py.strip s) = Py.str_in (String n needle) s.
Proof.
  intros Hneedle. unfold Py.strip. rewrite (str_in_rstrip _ _ Hneedle).
  apply str_in_lstrip. simpl in Hneedle.
  apply andb_true_iff in Hneedle as [Hn _]. by apply negb_true_iff.
Qed.

Lemma any_map {A B} (f : B -> bool) (g : A -> B) xs :
  Py.any f (map g xs) = Py.any (fun x => f (g x)) xs.
Proof.
  unfold Py.any. induction xs as [|x xs IH]; simpl; [done|by rewrite IH].
Qed.

Lemma any_ext {A} (f g : A -> bool) xs :
  (forall x, f x = g x) -> Py.any f xs = Py.any g xs.
Proof.
  intros H. unfold Py.any.
  induction xs as [|x xs IH]; simpl; [done|by rewrite H, IH].
Qed.

(** The test of a flag over the stripped pieces of the header is a test on
    the header as a whole. *)
Lemma cookie_flag_test n needle cookie_header :
  every_char (fun c => negb (Py.is_space c)) (String n needle) = true ->
  every_char (fun c => negb (Ascii.eqb c ";")) (String n needle) = true ->
  Py.any (fun c => Py.str_in (String n needle) (Py.lower c))
         (map Py.strip (Py.split ";" cookie_header))
  = Py.str_in (String n needle) (Py.lower cookie_header).
Proof.
  intros Hspace Hsep.
  rewrite any_map.
  rewrite (any_ext _ (fun c => Py.str_in (String n needle) (Py.lower c))).
  - rewrite <- (any_map (Py.str_in (String n needle)) Py.lower),
      <- split_lower.
    by apply any_split.
  - intros c. by rewrite <- strip_lower, str_in_strip.
Qed.

Lemma find_none_any {A} (f : A -> bool) xs :
  List.find f xs = None <-> Py.any f xs = false.
Proof.
  unfold Py.any. induction xs as [|x xs IH]; simpl; [done|].
  destruct (f x); simpl; [by split|done].
Qed.

(** The issues of [analyze_cookies], by the four tests. *)
Lemma analyze_cookies_shape cookie_header :
  analyze_cookies cookie_header =
    (if Py.str_in "secure" (Py.lower cookie_header) then []
     else ["Missing Secure flag"])
    ++ (if Py.str_in "httponly" (Py.lower cookie_header) then []
        else ["Missing HttpOnly flag"])
    ++ match List.find (fun c => Py.str_in "samesite" (Py.lower c))
                       (map Py.strip (Py.split ";" cookie_header)) with
       | None => ["Missing SameSite attribute"]
       | Some found =>
           if Py.str_in "samesite=none" (Py.lower found)
              && negb (Py.str_in "secure" (Py.lower cookie_header))
           then ["SameSite=None without Secure flag"]
           else []
       end
    ++ (if Py.str_in "domain=" (Py.lower cookie_header)
        then ["Overly broad domain setting"] else []).
Proof.
  unfold analyze_cookies. cbv zeta.
  rewrite !cookie_flag_test by reflexivity.
  destruct (List.find _ _) as [found|] eqn:Hfind.
  - apply find_some in Hfind as [_ Hfound].
    assert (Py.truthy found = true) as ->
      by (destruct found; [discriminate Hfound|done]).
    destruct (Py.str_in "secure" _), (Py.str_in "httponly" _),
      (Py.str_in "samesite=none" _), (Py.str_in "domain=" _); reflexivity.
  - destruct (Py.str_in "secure" _), (Py.str_in "httponly" _),
      (Py.str_in "domain=" _); reflexivity.
Qed.

(** X6.  A cookie header gets at most four issues; the issue about
    [SameSite=None] only comes together with the missing Secure flag, and
    never together with the missing SameSite attribute. *)
Theorem analyze_cookies_issues (cookie_header : string) :
  (length (analyze_cookies cookie_header) <= 4)%nat
  /\ (In "SameSite=None without Secure flag" (analyze_cookies cookie_header)
      -> In "Missing Secure flag" (analyze_cookies cookie_header))
  /\ ~ (In "SameSite=None without Secure flag" (analyze_cookies cookie_header)
        /\ In "Missing SameSite attribute" (analyze_cookies cookie_header)).
Proof.
  rewrite analyze_cookies_shape.
  destruct (List.find _ _) as [found|];
    destruct (Py.str_in "secure" _), (Py.str_in "httponly" _),
      (Py.str_in "domain=" _);
    try destruct (Py.str_in "samesite=none" _);
    simpl; (split; [lia|]); split; intros H;
    repeat match goal with
           | H : _ /\ _ |- _ => destruct H
           | H : _ \/ _ |- _ => destruct H
           | H : False |- _ => destruct H
           | H : @eq string _ _ |- _ => discriminate H
           end; auto.
Qed.

(** X7.  The tests of the cookie rule look for a substring anywhere in the
    lower-cased header: the Secure flag counts as set when the header
    contains [secure], the HttpOnly flag when it contains [httponly], a
    SameSite attribute when it contains [samesite], and the domain is
    reported when it contains [domain=], whether as an attribute, in a
    cookie name or in a value. *)
Theorem analyze_cookies_substring_tests (cookie_header : string) :
  (In "Missing Secure flag" (analyze_cookies cookie_header)
   <-> Py.str_in "secure" (Py.lower cookie_header) = false)
  /\ (In "Missing HttpOnly flag" (analyze_cookies cookie_header)
      <-> Py.str_in "httponly" (Py.lower cookie_header) = false)
  /\ (In "Missing SameSite attribute" (analyze_cookies cookie_header)
      <-> Py.str_in "samesite" (Py.lower cookie_header) = false)
  /\ (In "Overly broad domain setting" (analyze_cookies cookie_header)
      <-> Py.str_in "domain=" (Py.lower cookie_header) = true).
Proof.
  rewrite analyze_cookies_shape.
  rewrite <- (cookie_flag_test "s" "amesite" cookie_header eq_refl eq_refl).
  destruct (List.find _ _) as [found|] eqn:Hfind.
  - assert (Py.any (fun c => Py.str_in "samesite" (Py.lower c))
              (map Py.strip (Py.split ";" cookie_header)) = true) as ->.
    { destruct (Py.any _ _) eqn:Hany; [done|].
      apply find_none_any in Hany. congruence. }
    destruct (Py.str_in "secure" _), (Py.str_in "httponly" _),
      (Py.str_in "domain=" _), (Py.str_in "samesite=none" _);
      simpl; repeat split; intros H;
      repeat match goal with
             | H : _ \/ _ |- _ => destruct H
             | H : False |- _ => destruct H
             | H : @eq string _ _ |- _ => discriminate H
             | H : @eq bool _ _ |- _ => discriminate H
             end; auto.
  - apply find_none_any in Hfind. rewrite Hfind.
    destruct (Py.str_in "secure" _), (Py.str_in "httponly" _),
      (Py.str_in "domain=" _);
      simpl; repeat split; intros H;
      repeat match goal with
             | H : _ \/ _ |- _ => destruct H
             | H : False |- _ => destruct H
             | H : @eq string _ _ |- _ => discriminate H
             | H : @eq bool _ _ |- _ => discriminate H
             end; auto.
Qed.

Example analyze_cookies_name_passes_for_flag :
  analyze_cookies "insecure_httponly_samesite=1" = [].
Proof. reflexivity. Qed.

(** ** Decimal numbers *)








(** ** The HSTS rule, further *)









(** ** The TLS probe, further *)

Lemma filter_map_comm {A B} (f : B -> bool) (g : A -> B) xs :
  map g (List.filter (fun x => f (g x)) xs) = List.filter f (map g xs).
Proof.
  induction xs as [|x xs IH]; simpl; [done|].
  destruct (f (g x)); simpl; by rewrite IH.
Qed.

Lemma probe_keeps_weak_filter w target results results' outcome :
  Ssl.probe w target results = (results', outcome) ->
  Ssl.weak_ciphers results
  = List.filter Ssl.is_weak (default [] (Ssl.supported_ciphers results)) ->
  Ssl.weak_ciphers results'
  = List.filter Ssl.is_weak (default [] (Ssl.supported_ciphers results')).
Proof.
  unfold Ssl.probe, mbind, Ssl.Try_bind, mret, Ssl.Try_ret,
    Ssl.call, Ssl.raise, Ssl.assign.
  intros H Hbefore. repeat case_match; simplify_eq; try done;
    cbn [Ssl.weak_ciphers Ssl.supported_ciphers Ssl.set_ocsp_stapling
         Ssl.set_compression_enabled Ssl.set_ciphers Ssl.set_protocols
         Ssl.set_certificate default];
    try done;
    apply (filter_map_comm Ssl.is_weak (fun c => c.1.1)).
Qed.

(** X10.  Whatever the probe meets, the weak ciphers of the analysis are
    the supported ciphers (none when the key is absent) whose lower-cased
    name contains [rc4], [des] or [md5], in their order; the marker [3des]
    never decides, since a name that contains it contains [des]. *)
Theorem ssl_scan_weak_ciphers (w : World) (target : string) :
  Ssl.weak_ciphers (Ssl.ssl_scan w target)
  = List.filter Ssl.is_weak
      (default [] (Ssl.supported_ciphers (Ssl.ssl_scan w target)))
  /\ (forall cipher,
        Ssl.is_weak cipher
        = Py.str_in "rc4" (Py.lower cipher)
          || Py.str_in "des" (Py.lower cipher)
          || Py.str_in "md5" (Py.lower cipher)).
Proof.
  split.
  - unfold Ssl.ssl_scan.
    destruct (Ssl.probe w target Ssl.initial_results) as [results [u|e]] eqn:H;
      exact (probe_keeps_weak_filter _ _ _ _ _ H eq_refl).
  - intros cipher. unfold Ssl.is_weak, Ssl.weak_markers, Py.any. simpl.
    destruct (Py.str_in "3des" (Py.lower cipher)) eqn:H3des.
    + rewrite (str_in_trans "des" "3des" _ eq_refl H3des).
      by destruct (Py.str_in "rc4" _), (Py.str_in "md5" _).
    + by destruct (Py.str_in "rc4" _), (Py.str_in "des" _),
        (Py.str_in "md5" _).
Qed.

(** ** The checklist *)

(** The two lists of [categorize_checks], check by check. *)
Lemma categorize_checks_shape ha tls :
  categorize_checks ha tls =
    ( map (String.append "Header present: ")
          (List.filter (fun h => negb (Py.mem h (missing_essential ha)))
                       checked_headers)
      ++ (if nonempty (Ssl.weak_ciphers tls) then []
          else ["No weak cipher suites"])
      ++ (if Ssl.compression_enabled tls then []
          else ["TLS compression disabled"]),
      map (String.append "Header missing: ")
          (List.filter (fun h => Py.mem h (missing_essential ha))
                       checked_headers)
      ++ (if nonempty (Ssl.weak_ciphers tls)
          then ["Weak ciphers found: "
                +:+ Py.join ", " (Ssl.weak_ciphers tls)]
          else [])
      ++ (if Ssl.compression_enabled tls
          then ["TLS compression enabled (CRIME vulnerability risk)"]
          else []) ).
Proof.
  unfold categorize_checks, checked_headers. cbn [fold_left List.filter].
  repeat (match goal with
          | |- context [Py.mem ?h (missing_essential ha)] =>
              destruct (Py.mem h (missing_essential ha))
          end; cbn [negb]; cbv beta iota);
    destruct (nonempty (Ssl.weak_ciphers tls)),
      (Ssl.compression_enabled tls); reflexivity.
Qed.

(** X11.  Every one of the six checks gives one line, passed or failed:
    the two lists have six lines together, and a checked header is on the
    passed list exactly when it is not among the missing ones, on the
    failed list exactly when it is. *)
Theorem categorize_checks_one_line_each
    (header_analysis : HeaderAnalysis) (ssl_analysis : Ssl.TLSAnalysis) :
  let lists := categorize_checks header_analysis ssl_analysis in
  (length lists.1 + length lists.2 = 6)%nat
  /\ (forall h, In h checked_headers ->
        (In ("Header present: " +:+ h) lists.1
         <-> ~ In h (missing_essential header_analysis))
        /\ (In ("Header missing: " +:+ h) lists.2
            <-> In h (missing_essential header_analysis))).
Proof.
  cbv zeta. rewrite categorize_checks_shape. cbn [fst snd]. split.
  - unfold checked_headers. cbn [List.filter].
    destruct (Py.mem "content-security-policy" _),
      (Py.mem "x-content-type-options" _), (Py.mem "x-frame-options" _),
      (Py.mem "strict-transport-security" _),
      (nonempty (Ssl.weak_ciphers ssl_analysis)),
      (Ssl.compression_enabled ssl_analysis); reflexivity.
  - intros h Hh. rewrite <- (mem_true h (missing_essential header_analysis)).
    unfold checked_headers in *. cbn [List.filter].
    destruct Hh as [<-|[<-|[<-|[<-|[]]]]];
      destruct (Py.mem "content-security-policy" _),
        (Py.mem "x-content-type-options" _), (Py.mem "x-frame-options" _),
        (Py.mem "strict-transport-security" _),
        (nonempty (Ssl.weak_ciphers ssl_analysis)),
        (Ssl.compression_enabled ssl_analysis);
      simpl; split; split; intros H;
      repeat match goal with
             | H : _ \/ _ |- _ => destruct H
             | H : False |- _ => destruct H
             | H : ~ (true = true) |- _ => destruct (H eq_refl)
             | H : @eq string _ _ |- _ => discriminate H
             | H : @eq bool _ _ |- _ => discriminate H
             end; auto.
Qed.

(** X12.  After a probe that raised, the checklist still passes both TLS
    checks and fails none, and the recommendations end with the line about
    the error. *)
Theorem failed_probe_passes_tls_checks (w : World) (target e : string)
    (header_analysis : HeaderAnalysis) :
  (Ssl.probe w target Ssl.initial_results).2 = Err e ->
  let lists := categorize_checks header_analysis (Ssl.ssl_scan w target) in
  In "No weak cipher suites" lists.1
  /\ In "TLS compression disabled" lists.1
  /\ (forall line, In line lists.2 ->
        exists h, In h checked_headers /\ line = "Header missing: " +:+ h)
  /\ exists before,
       generate_recommendations header_analysis (Ssl.ssl_scan w target)
       = before ++ ["Fix SSL error: " +:+ e].
Proof.
  intros Hraise. cbv zeta. rewrite (ssl_scan_raised _ _ _ Hraise).
  rewrite categorize_checks_shape. cbn [fst snd].
  cbn [Ssl.weak_ciphers Ssl.compression_enabled Ssl.set_error
       Ssl.initial_results nonempty].
  split; [|split; [|split]].
  - apply in_or_app. right. by left.
  - apply in_or_app. right. right. by left.
  - intros line Hline. rewrite !app_nil_r in Hline.
    apply in_map_iff in Hline as (h & <- & Hh).
    apply filter_In in Hh as [Hh _]. by exists h.
  - unfold generate_recommendations.
    cbn [Ssl.weak_ciphers Ssl.compression_enabled Ssl.set_error
         Ssl.initial_results Ssl.error nonempty].
    by eexists.
Qed.

Lemma failed_probe_passes_tls_checks_witness :
  In "No weak cipher suites"
     (categorize_checks (analyze_headers ∅).1
        (Ssl.ssl_scan Example.tls_refused "https://site.test/")).1
  /\ In "TLS compression disabled"
        (categorize_checks (analyze_headers ∅).1
           (Ssl.ssl_scan Example.tls_refused "https://site.test/")).1.
Proof.
  pose proof (failed_probe_passes_tls_checks Example.tls_refused
                "https://site.test/" "[Errno 111] Connection refused"
                (analyze_headers ∅).1 eq_refl) as (H1 & H2 & _).
  exact (conj H1 H2).
Defined.

(** ** The orchestrator, further *)

Lemma read_only_check_wordpress body :
  read_only (Wordpress.check_wordpress body).
Proof. by intros headers. Qed.

Lemma read_only_analyze_wordpress body :
  read_only (Wordpress.analyze_wordpress_headers body).
Proof. by intros headers. Qed.

Lemma scan_result w target narrative deep r :
  scan w target narrative deep = Ok r ->
  exists body,
    fetch_headers_and_content w target = Ok (headers r, body)
    /\ url r = target
    /\ status_code r = 200
    /\ analysis r = stored_analysis (headers r) body
    /\ ssl r = Ssl.ssl_scan w target
    /\ dns r = (if deep then Some (Dns.dns_scan w target) else None)
    /\ (security_score r, score_breakdown r)
       = calculate_security_score (analysis r) (ssl r)
    /\ risk_level r = risk_level_of (security_score r)
    /\ recommendations r = generate_recommendations (analysis r) (ssl r)
    /\ (passed_checks r, failed_checks r)
       = categorize_checks (analysis r) (ssl r)
    /\ timestamp r = now_isoformat w
    /\ (narrative = false -> gemini_analysis r = None).
Proof.
  unfold scan, stored_analysis. intros H.
  destruct (fetch_headers_and_content w target) as [[fetched body]|e];
    [|discriminate].
  exists body.
  pose proof (read_only_analyze_headers fetched) as H1.
  destruct (analyze_headers fetched) as [ha fetched1] eqn:E1.
  simpl in H1. subst fetched1.
  pose proof (read_only_check_wordpress body fetched) as H2.
  destruct (Wordpress.check_wordpress body fetched) as [is_wp fetched2] eqn:E2.
  simpl in H2. subst fetched2.
  pose proof (read_only_analyze_wordpress body fetched) as H3.
  destruct (Wordpress.analyze_wordpress_headers body fetched)
    as [issues fetched3] eqn:E3.
  simpl in H3. subst fetched3.
  destruct is_wp;
    destruct (calculate_security_score _ _) as [score breakdown] eqn:Hscore;
    destruct (categorize_checks _ _) as [passed failed] eqn:Hchecks;
    destruct narrative; injection H as <-;
    cbn [headers url status_code analysis ssl dns security_score
         score_breakdown risk_level recommendations passed_checks
         failed_checks timestamp gemini_analysis set_gemini_analysis];
    rewrite ?E1, ?E2, ?E3, ?Hscore, ?Hchecks; cbn [fst];
    repeat split; done.
Qed.

(** X13.  Asking for the narrative changes nothing but the field
    [gemini_analysis]: the scan fails with the same error or returns the
    same result with the field filled in, whatever the narrative service
    does. *)
Theorem narrative_only_fills_its_field (w : World) (target : string)
    (deep : bool) :
  match analyze_website w target false deep with
  | Ok plain =>
      gemini_analysis plain = None
      /\ analyze_website w target true deep
         = Ok (set_gemini_analysis
                 (Gemini.generate_gemini_analysis w plain) plain)
  | Err e => analyze_website w target true deep = Err e
  end.
Proof.
  unfold analyze_website, scan.
  destruct (fetch_headers_and_content w target) as [[fetched body]|e];
    [|done].
  destruct (analyze_headers fetched) as [ha fetched1].
  destruct (Wordpress.check_wordpress body fetched1) as [is_wp fetched2].
  destruct is_wp;
    [destruct (Wordpress.analyze_wordpress_headers body fetched2)
       as [issues fetched3]|];
    destruct (calculate_security_score _ _) as [score breakdown];
    destruct (categorize_checks _ _) as [passed failed]; by split.
Qed.

(** X14.  A result hangs together: its headers are the fetched ones, its
    analysis is the one of those headers (with the CMS issues when the CMS
    is detected), and its score, breakdown, risk level, recommendations and
    checklist are the ones computed from the analysis and the TLS analysis
    it stores; the DNS part is there exactly for a deep scan. *)
Theorem analyze_website_result_consistent (w : World) (target : string)
    (narrative deep : bool) (r : AnalysisResult) :
  analyze_website w target narrative deep = Ok r ->
  exists body,
    fetch_headers_and_content w target = Ok (headers r, body)
    /\ url r = target
    /\ analysis r = stored_analysis (headers r) body
    /\ ssl r = Ssl.ssl_scan w target
    /\ dns r = (if deep then Some (Dns.dns_scan w target) else None)
    /\ (security_score r, score_breakdown r)
       = calculate_security_score (analysis r) (ssl r)
    /\ risk_level r = risk_level_of (security_score r)
    /\ recommendations r = generate_recommendations (analysis r) (ssl r)
    /\ (passed_checks r, failed_checks r)
       = categorize_checks (analysis r) (ssl r)
    /\ 0 <= security_score r <= 100.
Proof.
  unfold analyze_website. intros H.
  destruct (scan w target narrative deep) as [r'|e] eqn:Hscan; [|discriminate].
  injection H as ->.
  destruct (scan_result _ _ _ _ _ Hscan)
    as (body & ? & ? & ? & ? & ? & ? & Hscore & ? & ? & ? & ? & ?).
  exists body. repeat split; try done.
  - rewrite score_closed_form in Hscore. injection Hscore as -> _. lia.
  - rewrite score_closed_form in Hscore. injection Hscore as -> _.
    assert (0 <= wordpress_count (analysis r))
      by (unfold wordpress_count, len; destruct (wordpress_issues _); lia).
    unfold len. destruct (Ssl.compression_enabled (ssl r)); lia.
Qed.

Lemma analyze_website_result_consistent_witness :
  match analyze_website Example.tls_weak "https://site.test/" true true with
  | Ok r =>
      (security_score r, score_breakdown r)
      = calculate_security_score (analysis r) (ssl r)
      /\ recommendations r = generate_recommendations (analysis r) (ssl r)
  | Err _ => False
  end.
Proof.
  destruct (analyze_website Example.tls_weak "https://site.test/" true true)
    as [r|e] eqn:H.
  - destruct (analyze_website_result_consistent _ _ _ _ r H)
      as (body & _ & _ & _ & _ & _ & Hscore & _ & Hrecs & _).
    exact (conj Hscore Hrecs).
  - vm_compute in H. discriminate H.
Defined.

(** ** The DNS probe *)

Lemma dns_scan_nothing w domain :
  (forall name rdtype,
     Py.str_in domain name = true -> dns_resolve w name rdtype = None) ->
  Dns.dns_scan w domain = nothing_resolved.
Proof.
  intros Hnone.
  assert (forall p, Py.str_in domain (p +:+ domain) = true) as Hin.
  { intros p. apply str_in_append_r, prefix_str_in, prefix_spec.
    exists "". by rewrite append_nil_r. }
  unfold Dns.dns_scan, Dns.resolves, Dns.common_dkim_selectors, Py.any.
  cbn [existsb].
  rewrite (Hnone domain "DNSKEY" (Hin "")),
    (Hnone _ "TXT" (Hin "_dmarc.")), (Hnone domain "TXT" (Hin "")),
    (Hnone domain "MX" (Hin "")).
  rewrite <- !append_assoc.
  by rewrite !(Hnone _ "TXT" (Hin _)).
Qed.

(** X15.  A deep scan hands [dns_scan] the URL, not a host name: every
    name it asks the resolver for contains the URL with its [://].  When
    the resolver knows no name with [://] in it, the DNS part of the result
    of any URL that starts with [http://] or [https://] says that nothing
    was found. *)
Theorem deep_scan_resolves_the_url (w : World) (target : string)
    (narrative : bool) (r : AnalysisResult) :
  (forall name rdtype,
     Py.str_in "://" name = true -> dns_resolve w name rdtype = None) ->
  String.prefix "http://" target = true
  \/ String.prefix "https://" target = true ->
  analyze_website w target narrative true = Ok r ->
  dns r = Some nothing_resolved.
Proof.
  intros Hresolver Hscheme H. unfold analyze_website in H.
  destruct (scan w target narrative true) as [r'|e] eqn:Hscan; [|discriminate].
  injection H as ->.
  destruct (scan_result _ _ _ _ _ Hscan) as (_ & _ & _ & _ & _ & _ & -> & _).
  f_equal. apply dns_scan_nothing. intros name rdtype Hname.
  apply Hresolver. apply (str_in_trans _ target); [|done].
  destruct Hscheme as [Hs|Hs]; apply prefix_spec in Hs as [q ->].
  - apply (str_in_append_l "://" "http://"). reflexivity.
  - apply (str_in_append_l "://" "https://"). reflexivity.
Qed.

Lemma deep_scan_resolves_the_url_witness :
  match analyze_website Example.tls_refused "https://site.test/" false true
  with
  | Ok r => dns r = Some nothing_resolved
  | Err _ => False
  end.
Proof.
  destruct (analyze_website Example.tls_refused "https://site.test/"
              false true) as [r|e] eqn:H.
  - exact (deep_scan_resolves_the_url Example.tls_refused
             "https://site.test/" false r
             (fun _ _ _ => eq_refl) (or_intror eq_refl) H).
  - vm_compute in H. discriminate H.
Defined.

(** ** The CMS fingerprint *)

Lemma any_values (f : string -> bool) (headers : HeaderSet) :
  Py.any f (dict_values headers).1 = true
  <-> exists name v, headers !! name = Some v /\ f v = true.
Proof.
  unfold Py.any, dict_values. cbn [fst]. rewrite existsb_exists. split.
  - intros (v & Hin & Hv). apply in_map_iff in Hin as ([name v'] & <- & Hin).
    exists name, v'. split; [|done].
    by apply elem_of_map_to_list, list_elem_of_In.
  - intros (name & v & Hlookup & Hv). exists v. split; [|done].
    apply in_map_iff. exists (name, v). split; [done|].
    by apply list_elem_of_In, elem_of_map_to_list.
Qed.

(** X16.  The CMS is detected exactly when a header value contains
    [wordpress], the [link] header contains [wp-json], or the body contains
    [wp-content] or [wp-includes], all without regard to letter case; the
    test of [x-powered-by] adds nothing to the first of these.  The headers
    [x-wp-cron], [x-redirect-by] and [x-pingback] are not looked at. *)
Theorem check_wordpress_signals (headers : HeaderSet) (body : string) :
  (Wordpress.check_wordpress body headers).1 = true
  <-> (exists name v, headers !! name = Some v
                      /\ Py.str_in "wordpress" (Py.lower v) = true)
      \/ (exists v, headers !! "link" = Some v
                    /\ Py.str_in "wp-json" (Py.lower v) = true)
      \/ Py.str_in "wp-content" (Py.lower body) = true
      \/ Py.str_in "wp-includes" (Py.lower body) = true.
Proof.
  rewrite <- (any_values (fun v => Py.str_in "wordpress" (Py.lower v))).
  unfold Wordpress.check_wordpress, mbind, Reads_bind, dict_lookup, mret,
    Reads_ret. cbn [fst dict_values Py.any existsb id].
  rewrite orb_false_r, !orb_true_iff.
  destruct (headers !! "x-powered-by") as [powered|] eqn:Hpowered;
    destruct (headers !! "link") as [link|] eqn:Hlink.
  - split.
    + intros [H|[H|[H|[H|H]]]]; eauto 6.
      left. apply any_values. eauto.
    + intros [H|[(v & [= <-] & H)|[H|H]]]; auto.
  - split.
    + intros [H|[H|[H|[H|H]]]]; eauto 6; [|done].
      left. apply any_values. eauto.
    + intros [H|[(v & [=] & H)|[H|H]]]; auto.
  - split.
    + intros [H|[H|[H|[H|H]]]]; eauto 6. done.
    + intros [H|[(v & [= <-] & H)|[H|H]]]; auto.
  - split.
    + intros [H|[H|[H|[H|H]]]]; eauto 6; done.
    + intros [H|[(v & [=] & H)|[H|H]]]; auto.
Qed.

Lemma version_leak_app patterns body issues :
  Wordpress.version_leak patterns body issues
  = issues ++ Wordpress.version_leak patterns body [].
Proof.
  induction patterns as [|p patterns IH]; simpl.
  - by rewrite app_nil_r.
  - by destruct (Py.search _ _ _ _).
Qed.

Lemma version_leak_length patterns body :
  (length (Wordpress.version_leak patterns body []) <= 1)%nat.
Proof.
  induction patterns as [|p patterns IH]; simpl; [lia|].
  destruct (Py.search _ _ _ _); simpl; lia.
Qed.

(** X17.  The CMS analysis finds at most seven issues, of which at most
    one about a version, added last; and a response with the header
    [x-pingback] always gets two issues for it. *)
Theorem analyze_wordpress_headers_issues (headers : HeaderSet)
    (body : string) :
  let issues := (Wordpress.analyze_wordpress_headers body headers).1 in
  (length issues <= 7)%nat
  /\ (exists before,
        issues = before
                 ++ Wordpress.version_leak Wordpress.version_patterns body []
        /\ (length (Wordpress.version_leak Wordpress.version_patterns body [])
            <= 1)%nat)
  /\ (is_Some (headers !! "x-pingback") ->
      In "WordPress header exposed: x-pingback" issues
      /\ In "XML-RPC pingback endpoint exposed (consider disabling if not needed)"
            issues).
Proof.
  cbv zeta.
  unfold Wordpress.analyze_wordpress_headers, mbind, Reads_bind, mret,
    Reads_ret, dict_contains, dict_lookup, dict_values.
  rewrite select_names_run. cbn [fst snd id].
  rewrite version_leak_app.
  pose proof (version_leak_length Wordpress.version_patterns body) as Hone.
  unfold Wordpress.wordpress_headers. cbn [List.filter].
  fold (present headers "x-pingback").
  destruct (headers !! "link") as [link|], (present headers "x-wp-cron"),
    (present headers "x-redirect-by"),
    (present headers "x-pingback") eqn:Hping;
    try destruct (Py.str_in "wp-json" link);
    match goal with
    | |- context [Py.any ?f ?l] => destruct (Py.any f l)
    end;
    (split; [rewrite length_app; cbn [append_each fold_left app length]; lia|]);
    (split; [by eexists|]);
    intros Hsome; apply present_true in Hsome; try congruence;
    split; apply in_or_app; left;
    cbn [append_each fold_left app In];
    repeat (first [left; reflexivity | right]).
Qed.

(** ** The API key *)

(** X18.  The permission and the authentication agree: a request has the
    permission exactly when the authentication succeeds, and that is when
    its key is not empty and is one of the configured keys; an empty key is
    refused even if it is configured. *)
Theorem has_permission_iff_authenticates (settings : Settings)
    (api_key : option string) :
  (has_permission settings api_key = true
   <-> authenticate settings api_key = Ok tt)
  /\ (has_permission settings api_key = true
      <-> exists key, api_key = Some key /\ key <> ""
                      /\ is_Some (API_KEYS settings !! key))
  /\ (authenticate settings api_key = Err "Invalid API key"
      <-> exists key, api_key = Some key /\ key <> ""
                      /\ API_KEYS settings !! key = None).
Proof.
  unfold has_permission, authenticate.
  destruct api_key as [[|c key]|]; cbn [Py.truthy negb].
  - repeat split; try done; by intros (key & [= <-] & ? & ?).
  - destruct (bool_decide (is_Some (API_KEYS settings !! String c key)))
      eqn:Hkey; cbn [negb].
    + apply bool_decide_eq_true in Hkey. repeat split; try done.
      * intros _. by exists (String c key).
      * intros (key' & [= <-] & _ & Hnone). destruct Hkey. congruence.
    + apply bool_decide_eq_false in Hkey. repeat split; try done.
      * by intros (key' & [= <-] & _ & Hsome).
      * intros _. exists (String c key). repeat split; [done|].
        by apply eq_None_not_Some.
  - repeat split; try done; by intros (key & [=] & ?).
Qed.

(** ** The rate limit *)












Example int_accepts :
  PyInt.int " 42 " = Some 42 /\ PyInt.int "+5" = Some 5
  /\ PyInt.int "-1_000" = Some (-1000) /\ PyInt.int "007" = Some 7.
Proof. by repeat split. Qed.

Example int_raises :
  PyInt.int "" = None /\ PyInt.int "1__0" = None /\ PyInt.int "5_" = None
  /\ PyInt.int "_5" = None /\ PyInt.int "+ 5" = None
  /\ PyInt.int "ten" = None.
Proof. by repeat split. Qed.

Example parse_rate_default :
  RateLimit.parse_rate (RATE_LIMIT default_settings) = Some (10, 60)
  /\ RateLimit.parse_rate "ten/minute" = None.
Proof. by repeat split. Qed.

Lemma parse_rate_nonempty rate limit period :
  RateLimit.parse_rate rate = Some (limit, period) -> Py.truthy rate = true.
Proof. by destruct rate. Qed.





(** One request under the limit, with the count it finds. *)
Lemma call_counts settings now request cache limit period :
  String.prefix "/api/" (RateLimit.path request) = true ->
  RateLimit.parse_rate
    (RateLimit.get_rate_limit settings
       (default "anonymous" (RateLimit.api_key_header request)))
  = Some (limit, period) ->
  let key := RateLimit.cache_key
               (default "anonymous" (RateLimit.api_key_header request))
               (RateLimit.path request) in
  let current := RateLimit.cache_get now key 0 cache in
  RateLimit.call settings now request cache =
    if limit <=? current then Some (RateLimit.TooManyRequests, cache)
    else Some (RateLimit.Forward,
               RateLimit.cache_set now key (current + 1) period cache).
Proof.
  intros Hpath Hrate. cbv zeta. unfold RateLimit.call.
  rewrite Hpath, (parse_rate_nonempty _ _ _ Hrate), Hrate. reflexivity.
Qed.

Lemma last_default {A} (xs : list A) (d d' : A) :
  xs <> [] -> List.last xs d = List.last xs d'.
Proof.
  induction xs as [|x [|y xs] IH]; intros H; [done|done|].
  change (List.last (y :: xs) d = List.last (y :: xs) d'). by apply IH.
Qed.

(** Requests that follow one another closely, starting from a count. *)
Lemma call_at_close settings request limit period instants :
  String.prefix "/api/" (RateLimit.path request) = true ->
  RateLimit.parse_rate
    (RateLimit.get_rate_limit settings
       (default "anonymous" (RateLimit.api_key_header request)))
  = Some (limit, period) ->
  let key := RateLimit.cache_key
               (default "anonymous" (RateLimit.api_key_header request))
               (RateLimit.path request) in
  forall cache count previous,
    cache !! key
    = Some {| RateLimit.value := count;
              RateLimit.expires := previous + period |} ->
    close_together period previous instants ->
    count + Z.of_nat (length instants) <= limit ->
    exists cache',
      RateLimit.call_at settings request instants cache
      = Some (replicate (length instants) RateLimit.Forward, cache')
      /\ (instants <> [] ->
          cache' !! key
          = Some {| RateLimit.value := count + Z.of_nat (length instants);
                    RateLimit.expires := List.last instants previous + period |})
      /\ (instants = [] -> cache' = cache).
Proof.
  intros Hpath Hrate key.
  induction instants as [|now later IH]; intros cache count previous
    Hentry Hclose Hroom.
  - exists cache. by repeat split.
  - destruct Hclose as [Hnow Hclose]. cbn [length] in Hroom.
    cbn [RateLimit.call_at].
    rewrite (call_counts _ _ _ _ _ _ Hpath Hrate). fold key.
    unfold RateLimit.cache_get. rewrite Hentry. cbn [RateLimit.expires
      RateLimit.value].
    rewrite (proj2 (Z.ltb_lt now (previous + period))) by lia.
    rewrite (proj2 (Z.leb_gt limit count)) by lia.
    cbn [mbind option_bind].
    destruct (IH (RateLimit.cache_set now key (count + 1) period cache)
                (count + 1) now) as (cache' & Hrun & Hlast & Hsame).
    { apply lookup_insert_eq. }
    { done. }
    { lia. }
    rewrite Hrun. cbn [mbind option_bind]. exists cache'.
    split; [done|]. split; [|done]. intros _.
    destruct later as [|next later'].
    + rewrite (Hsame eq_refl). unfold RateLimit.cache_set.
      rewrite lookup_insert_eq. cbn [length List.last]. do 2 f_equal.
    + rewrite (Hlast ltac:(done)). f_equal. f_equal.
      * cbn [length]. lia.
      * f_equal. change (List.last (now :: next :: later') previous)
          with (List.last (next :: later') previous).
        by apply last_default.
Qed.

(** X21.  The window is counted from the last request that passed, not
    from the first: of [limit + 1] requests for the same key and path,
    each less than a period after the one before, the first [limit] pass
    and the last one is refused, however long they take together. *)
Theorem rate_limit_counts_close_requests (settings : Settings)
    (request : RateLimit.Request) (cache : RateLimit.Cache)
    (limit period first : Z) (later : list Z) :
  String.prefix "/api/" (RateLimit.path request) = true ->
  RateLimit.parse_rate
    (RateLimit.get_rate_limit settings
       (default "anonymous" (RateLimit.api_key_header request)))
  = Some (limit, period) ->
  cache !! RateLimit.cache_key
             (default "anonymous" (RateLimit.api_key_header request))
             (RateLimit.path request) = None ->
  0 <= limit ->
  close_together period first later ->
  Z.of_nat (length later) = limit ->
  exists cache',
    RateLimit.call_at settings request (first :: later) cache
    = Some (replicate (Z.to_nat limit) RateLimit.Forward
            ++ [RateLimit.TooManyRequests], cache').
Proof.
  intros Hpath Hrate Hfresh Hlimit Hclose Hlength.
  set (key := RateLimit.cache_key
                (default "anonymous" (RateLimit.api_key_header request))
                (RateLimit.path request)) in *.
  destruct (decide (limit = 0)) as [->|Hpositive].
  - destruct later; [|done]. cbn [RateLimit.call_at].
    rewrite (call_counts _ _ _ _ _ _ Hpath Hrate). fold key.
    unfold RateLimit.cache_get. rewrite Hfresh. by exists cache.
  - destruct (exists_last (l := later)) as (middle & final & ->).
    { intros ->. simpl in Hlength. lia. }
    rewrite length_app in Hlength. cbn [length] in Hlength.
    assert (exists previous,
              close_together period first middle
              /\ List.last middle first = previous
              /\ previous <= final < previous + period)
      as (previous & Hmiddle & Hlast & Hfinal).
    { clear -Hclose. revert first Hclose.
      induction middle as [|t middle IH]; intros first Hclose.
      - exists first. simpl in *. tauto.
      - destruct Hclose as [Ht Hclose].
        destruct (IH t Hclose) as (previous & ? & Hlast & ?).
        exists previous. split; [by split|]. split; [|done].
        destruct middle as [|y ms]; [done|].
        change (List.last (y :: ms) first = previous).
        by rewrite (last_default _ first t). }
    (* the first request *)
    assert (RateLimit.call settings first request cache
            = Some (RateLimit.Forward,
                    RateLimit.cache_set first key 1 period cache))
      as Hfirst.
    { rewrite (call_counts _ _ _ _ _ _ Hpath Hrate). fold key.
      unfold RateLimit.cache_get. rewrite Hfresh.
      by rewrite (proj2 (Z.leb_gt limit 0)) by lia. }
    destruct (call_at_close settings request limit period middle Hpath Hrate
                (RateLimit.cache_set first key 1 period cache) 1 first)
      as (cache1 & Hrun & Hentry & Hsame).
    { apply lookup_insert_eq. }
    { done. }
    { lia. }
    fold key in Hentry, Hrun.
    (* the last request finds the count at the limit *)
    assert (cache1 !! key
            = Some {| RateLimit.value := limit;
                      RateLimit.expires := previous + period |}) as Hfull.
    { destruct middle as [|t middle'].
      - rewrite (Hsame eq_refl). unfold RateLimit.cache_set.
        rewrite lookup_insert_eq. simpl in *. subst previous.
        do 2 f_equal. lia.
      - rewrite (Hentry ltac:(done)), Hlast. do 2 f_equal. lia. }
    exists cache1.
    assert (forall instants c c' decisions,
              RateLimit.call_at settings request instants c
              = Some (decisions, c') ->
              RateLimit.call settings final request c'
              = Some (RateLimit.TooManyRequests, c') ->
              RateLimit.call_at settings request (instants ++ [final]) c
              = Some (decisions ++ [RateLimit.TooManyRequests], c'))
      as Hsnoc.
    { induction instants as [|t instants IH]; intros c c' decisions Hrun' Hend.
      - injection Hrun' as <- <-. cbn [app RateLimit.call_at].
        by rewrite Hend.
      - cbn [app RateLimit.call_at] in *.
        destruct (RateLimit.call settings t request c) as [[d c1]|];
          [|done]. cbn [mbind option_bind] in *.
        destruct (RateLimit.call_at settings request instants c1)
          as [[ds c2]|] eqn:Hrest; [|done].
        cbn [mbind option_bind] in Hrun'. injection Hrun' as <- <-.
        by rewrite (IH _ _ _ Hrest Hend). }
    change (first :: middle ++ [final]) with ((first :: middle) ++ [final]).
    replace (Z.to_nat limit) with (S (length middle)) by lia.
    apply Hsnoc.
    + cbn [RateLimit.call_at]. rewrite Hfirst. cbn [mbind option_bind].
      by rewrite Hrun.
    + rewrite (call_counts _ _ _ _ _ _ Hpath Hrate). fold key.
      unfold RateLimit.cache_get. rewrite Hfull.
      cbn [RateLimit.value RateLimit.expires].
      rewrite (proj2 (Z.ltb_lt final (previous + period))) by lia.
      by rewrite Z.leb_refl.
Qed.

Lemma rate_limit_counts_close_requests_witness :
  exists cache',
    RateLimit.call_at default_settings
      {| RateLimit.path := "/api/analyze/";
         RateLimit.api_key_header := Some "default-key" |}
      [0; 59; 118; 177; 236; 295; 354; 413; 472; 531; 590] ∅
    = Some (replicate 10 RateLimit.Forward ++ [RateLimit.TooManyRequests],
            cache').
Proof.
  apply (rate_limit_counts_close_requests default_settings
           {| RateLimit.path := "/api/analyze/";
              RateLimit.api_key_header := Some "default-key" |}
           ∅ 10 60 0 [59; 118; 177; 236; 295; 354; 413; 472; 531; 590]).
  - reflexivity.
  - vm_compute. reflexivity.
  - reflexivity.
  - lia.
  - simpl. lia.
  - reflexivity.
Defined.

(** ** The endpoint *)

Lemma is_valid_scheme {Data} (service : Views.Service Data) fields request :
  Views.is_valid service fields = Ok request ->
  String.prefix "http://" (Views.url request) = true
  \/ String.prefix "https://" (Views.url request) = true.
Proof.
  unfold Views.is_valid, Views.validate_url. intros Hvalid.
  destruct fields as [request'|]; [|done].
  destruct (String.prefix "http://" (Views.url request')) eqn:Hhttp,
    (String.prefix "https://" (Views.url request')) eqn:Hhttps;
    cbn [orb negb] in Hvalid; try done;
    destruct (Views.url_validator service _); try done;
    injection Hvalid as <-; auto.
Qed.

(** X22.  The endpoint answers 200, 400 or 500; it answers 400 exactly
    when the request is not valid, and a valid request has a URL that
    starts with [http://] or [https://]; every failure of the scan is
    answered 500, a failed fetch too, with the text of the
    [AnalysisError] as detail. *)
Theorem post_status {Data} (service : Views.Service Data) (w : World)
    (fields : result Views.ScanRequest string) :
  let response := Views.post service w fields in
  (Views.status response = 200 \/ Views.status response = 400
   \/ Views.status response = 500)
  /\ (Views.status response = 400
      <-> exists errors, Views.is_valid service fields = Err errors)
  /\ (forall request,
        Views.is_valid service fields = Ok request ->
        (String.prefix "http://" (Views.url request) = true
         \/ String.prefix "https://" (Views.url request) = true)
        /\ forall cause,
             http_get w (Views.url request) = Err (HTTPError cause) ->
             response =
               {| Views.status := 500;
                  Views.body :=
                    Views.Detail
                      ("Analysis failed: Request to target website failed: "
                       +:+ cause) |}).
Proof.
  cbv zeta. unfold Views.post.
  destruct (Views.is_valid service fields) as [request|errors] eqn:Hvalid.
  - pose proof (is_valid_scheme _ _ _ Hvalid) as Hscheme.
    destruct (analyze_website w _ _ _) as [analysed|e] eqn:Hscan.
    + assert (forall cause,
                http_get w (Views.url request) <> Err (HTTPError cause))
        as Hreached.
      { intros cause Hget.
        rewrite (analyze_website_after_failed_fetch _ _ _ _ _ Hget) in Hscan.
        discriminate. }
      destruct (Views.pdf_generation request);
        [destruct (Views.pdf_report _ _ _)|destruct (Views.serialize _ _)];
        cbn [Views.status];
        (split; [auto|]); (split; [split; [done|by intros [? ?]]|]);
        intros request' [= <-]; (split; [done|]);
        intros cause Hget; by destruct (Hreached cause).
    + pose proof Hscan as Hscan'.
      apply analyze_website_raises_AnalysisError in Hscan'
        as (cause' & _ & He).
      subst e. cbn [Views.status].
      split; [auto|]. split; [split; [done|by intros [? ?]]|].
      intros request' [= <-]. split; [done|].
      intros cause Hget.
      rewrite (analyze_website_after_failed_fetch _ _ _ _ _ Hget) in Hscan.
      congruence.
  - cbn [Views.status]. split; [auto|].
    split; [split; [by exists errors|done]|done].
Qed.

(** ** The report *)

(** X23.  In the breakdown table of the report no category is ever rated
    Good and every score is shown in the colour of danger: the categories
    are rated against 100 although their budgets are 40 and below.  The
    categories other than [headers] are always Poor, and [headers] is Fair
    only when no essential header is missing and none is deprecated. *)
Theorem breakdown_never_rated_good (header_analysis : HeaderAnalysis)
    (ssl_analysis : Ssl.TLSAnalysis) (category : string) (score : Z) :
  (calculate_security_score header_analysis ssl_analysis).2 !! category
  = Some score ->
  Pdf.breakdown_status score <> "Good"
  /\ Pdf.get_score_color score = "danger"
  /\ (category <> "headers" -> Pdf.breakdown_status score = "Poor")
  /\ (category = "headers" ->
      (Pdf.breakdown_status score = "Fair"
       <-> missing_essential header_analysis = []
           /\ deprecated header_analysis = [])).
Proof.
  rewrite score_closed_form. cbn [snd]. intros Hscore.
  assert (0 <= len (missing_essential header_analysis)) by (unfold len; lia).
  assert (0 <= len (deprecated header_analysis)) by (unfold len; lia).
  assert (0 <= len (Ssl.weak_ciphers ssl_analysis)) by (unfold len; lia).
  assert (0 <= wordpress_count header_analysis)
    by (unfold wordpress_count, len; destruct (wordpress_issues _); lia).
  assert (score <= 40) as Hle.
  { apply budgets_lookup in Hscore
      as [[_ ->]|[[_ ->]|[[_ ->]|[[_ ->]|[_ ->]]]]];
      try destruct (Ssl.compression_enabled ssl_analysis); lia. }
  unfold Pdf.breakdown_status, Pdf.get_score_color.
  rewrite (proj2 (Z.leb_gt 70 score)), (proj2 (Z.leb_gt 80 score)),
    (proj2 (Z.leb_gt 50 score)) by lia.
  split; [by destruct (40 <=? score)|]. split; [done|]. split.
  - intros Hcategory.
    apply budgets_lookup in Hscore
      as [[-> _]|[[_ ->]|[[_ ->]|[[_ ->]|[_ ->]]]]]; [done|..];
      try destruct (Ssl.compression_enabled ssl_analysis);
      by rewrite (proj2 (Z.leb_gt 40 _)) by lia.
  - intros ->.
    apply budgets_lookup in Hscore
      as [[_ ->]|[[? _]|[[? _]|[[? _]|[? _]]]]]; try done.
    destruct (Z.leb_spec 40
                (Z.max 0 (40 - 3 * len (missing_essential header_analysis)
                          - 2 * len (deprecated header_analysis)))).
    + split; [intros _|done].
      unfold len in *.
      destruct (missing_essential header_analysis),
        (deprecated header_analysis); simpl in *; try lia. done.
    + split; [done|]. intros [Hm Hd]. rewrite Hm, Hd in *.
      unfold len in *. simpl in *. lia.
Qed.

Lemma breakdown_never_rated_good_witness :
  Pdf.breakdown_status 30 <> "Good" /\ Pdf.get_score_color 30 = "danger".
Proof.
  destruct (breakdown_never_rated_good (analyze_headers ∅).1
              Ssl.initial_results "ssl" 30 eq_refl) as (H1 & H2 & _).
  exact (conj H1 H2).
Defined.

Lemma generate_recommendations_starts ha tls :
  exists rest,
    generate_recommendations ha tls
    = map (String.append "Add missing security header: ")
          (missing_essential ha) ++ rest.
Proof.
  unfold generate_recommendations.
  destruct (wordpress_issues ha) as [issues|];
    destruct (nonempty (Ssl.weak_ciphers tls));
    destruct (Ssl.compression_enabled tls);
    destruct (Ssl.error tls) as [e|];
    rewrite !append_each_map, app_nil_l, <- ?app_assoc; by eexists.
Qed.

(** X24.  The table of priority findings has the first five
    recommendations (fewer when there are fewer), numbered from 1; the
    first three are HIGH, the others MEDIUM, whatever they say.  So with
    five essential headers missing, the table shows five missing headers
    and nothing of what the TLS analysis found. *)
Theorem priority_findings_follow_the_order
    (header_analysis : HeaderAnalysis) (ssl_analysis : Ssl.TLSAnalysis) :
  (forall recommendations,
     length (Pdf.priority_findings recommendations)
     = Nat.min 5 (length recommendations)
     /\ forall i row,
          Pdf.priority_findings recommendations !! i = Some row ->
          exists rec,
            recommendations !! i = Some rec
            /\ row = Pdf.priority_row (Z.of_nat i + 1) rec
            /\ row.1.2 = (if (i <? 3)%nat then "HIGH" else "MEDIUM"))
  /\ ((5 <= length (missing_essential header_analysis))%nat ->
      Pdf.priority_findings
        (generate_recommendations header_analysis ssl_analysis)
      = Pdf.priority_findings
          (map (String.append "Add missing security header: ")
               (missing_essential header_analysis))).
Proof.
  split.
  - intros recommendations. unfold Pdf.priority_findings. split.
    + by rewrite length_imap, length_take.
    + intros i row Hrow. rewrite list_lookup_imap in Hrow.
      destruct (take 5 recommendations !! i) as [rec|] eqn:Hrec; [|done].
      injection Hrow as <-. exists rec.
      apply lookup_take_Some in Hrec as [Hrec Hi].
      split; [done|]. split; [done|].
      unfold Pdf.priority_row. cbn [fst snd].
      destruct (Nat.ltb_spec i 3).
      * by rewrite (proj2 (Z.leb_le (Z.of_nat i + 1) 3)) by lia.
      * by rewrite (proj2 (Z.leb_gt (Z.of_nat i + 1) 3)) by lia.
  - intros Hfive.
    destruct (generate_recommendations_starts header_analysis ssl_analysis)
      as [rest ->].
    unfold Pdf.priority_findings.
    rewrite take_app_le; [done|]. by rewrite length_map.
Qed.

(** ** The service scanned by itself *)




